(** * claudish: local-provider registry, handler and port finder

    A shallow embedding of
    - [src/providers/provider-registry.ts]  (module [Registry]),
    - the local provider handler, class [LocalProviderHandler]
      (module [Handler]),
    - the port finder [findAvailablePort] (module [Ports]),
    with the properties of the specification proved about them
    ([RegistryFacts], [HandlerFacts], [PortsFacts]).

    Conventions.
    - A JavaScript string is a [string]; one [ascii] stands for one code
      unit, so the strings of the model are those over U+0000..U+00FF.
    - A value of type [any] is a [JSValue]; a missing property reads as
      [Undefined], as in JavaScript, and an object lists its properties in
      the order they were set.
    - A [number] that counts something (tokens, ports, HTTP status) is a
      [Z]; the context window, which [parseInt] can make [NaN], is a
      [Number]. Arithmetic is exact; infinities are left out.
    - The handler is a computation in the state monad over a [World]: the
      fields of the handler, the requests sent so far and the files
      written so far. [await] is sequencing.
    - Built-ins of the platform whose code is not part of the repository
      ([JSON.parse], [new URL], [parseInt], [process.env], [fetch],
      [Math.random], the port probe) and the helpers of the repository
      that are not in the sources at hand ([transformOpenAIToClaude],
      [convertMessagesToOpenAI], [convertToolsToOpenAI], the adapter's
      [prepareRequest]) are section variables.
    - [c.json] of the web framework is what the [Response] constructor
      does with the status: a status outside 200..599, or one that
      allows no body, makes it throw. *)

From Stdlib Require Import String Ascii List ZArith QArith Qround Bool Lia Lqa.
From Stdlib Require Import DecimalString.
From ExtLib Require Import Structures.Monad Structures.MonadState.
From ExtLib Require Import Data.Monads.StateMonad.
Import ListNotations.
Import MonadNotation.

Local Open Scope monad_scope.
Local Open Scope list_scope.
Local Open Scope string_scope.

(* ===================================================================== *)
(** * JavaScript strings *)
(* ===================================================================== *)

Module JSString.

(** [s.startsWith(p)] *)
Definition startsWith (s p : string) : bool := String.prefix p s.

(** [s.slice(n)] for [0 <= n]: the string without its first [n] units. *)
Fixpoint slice (n : nat) (s : string) : string :=
  match n, s with
  | O, _ => s
  | S _, EmptyString => EmptyString
  | S n', String _ s' => slice n' s'
  end.

(** [hay.includes(needle)] *)
Fixpoint includes (hay needle : string) : bool :=
  String.prefix needle hay
  || match hay with
     | EmptyString => false
     | String _ hay' => includes hay' needle
     end.

(** [s.split(sep)] for a separator of one unit; never the empty list. *)
Fixpoint split (sep : ascii) (s : string) : list string :=
  match s with
  | EmptyString => [EmptyString]
  | String c s' =>
      if Ascii.eqb c sep then EmptyString :: split sep s'
      else match split sep s' with
           | [] => [String c EmptyString]
           | seg :: segs => String c seg :: segs
           end
  end.

(** [Boolean(s)] for a string: the empty string is the only falsy one. *)
Definition nonEmpty (s : string) : bool :=
  match s with EmptyString => false | String _ _ => true end.

(** [a || b] where [a] is a string that may be undefined. *)
Definition orElse (a : option string) (b : string) : string :=
  match a with
  | Some s => if nonEmpty s then s else b
  | None => b
  end.

(** [s.endsWith(suffix)] *)
Fixpoint endsWith (s suffix : string) : bool :=
  String.eqb s suffix
  || match s with
     | EmptyString => false
     | String _ s' => endsWith s' suffix
     end.

(** [s.replace(/\/+$/, "")]: [s] without the slashes it ends in. *)
Fixpoint stripTrailingSlashes (s : string) : string :=
  match s with
  | EmptyString => EmptyString
  | String c s' =>
      let rest := stripTrailingSlashes s' in
      if Ascii.eqb c "/" && negb (nonEmpty rest) then EmptyString
      else String c rest
  end.

(** [s.replace(/<suffix>$/, "")] for a suffix that is plain text and not
    empty: [s] without that suffix when it ends in it, else [s]. *)
Fixpoint removeSuffix (s suffix : string) : string :=
  if String.eqb s suffix then EmptyString
  else match s with
       | EmptyString => EmptyString
       | String c s' => String c (removeSuffix s' suffix)
       end.

(** The first unit of [s] satisfies [f]; [false] for the empty string. *)
Definition firstUnit (f : ascii -> bool) (s : string) : bool :=
  match s with
  | EmptyString => false
  | String c _ => f c
  end.

(** Every unit of [s] satisfies [f]. *)
Fixpoint allUnits (f : ascii -> bool) (s : string) : bool :=
  match s with
  | EmptyString => true
  | String c s' => f c && allUnits f s'
  end.

End JSString.

(* ===================================================================== *)
(** * The provider registry *)
(* ===================================================================== *)

Module Registry.
Import JSString.

Record ProviderCapabilities := {
  supportsTools : bool;
  supportsVision : bool;
  supportsStreaming : bool;
  supportsJsonMode : bool
}.

Record LocalProvider := {
  name : string;
  baseUrl : string;
  apiPath : string;
  envVar : string;
  apiKeyEnvVar : string;
  prefixes : list string;
  capabilities : ProviderCapabilities
}.

Record ResolvedProvider := {
  provider : LocalProvider;
  modelName : string
}.

Record UrlParsedModel := {
  parsedBaseUrl : string;
  parsedModelName : string
}.

(** What [new URL(s)] exposes to [parseUrlModel]. *)
Record URL := {
  protocol : string;
  host : string;
  pathname : string
}.

Definition defaultCapabilities (tools : bool) : ProviderCapabilities :=
  {| supportsTools := tools; supportsVision := false;
     supportsStreaming := true; supportsJsonMode := true |}.

Section WithPlatform.

(** [process.env]: [None] for a variable that is not set. *)
Variable env : string -> option string.

(** [new URL(s)]: [None] when the constructor throws. *)
Variable URL_new : string -> option URL.

Definition getProviders : list LocalProvider :=
  [ {| name := "ollama";
       baseUrl := orElse (env "OLLAMA_HOST")
                    (orElse (env "OLLAMA_BASE_URL") "http://localhost:11434");
       apiPath := "/v1/chat/completions";
       envVar := "OLLAMA_BASE_URL";
       apiKeyEnvVar := "OLLAMA_API_KEY";
       prefixes := ["ollama/"; "ollama:"];
       capabilities := defaultCapabilities true |};
    {| name := "lmstudio";
       baseUrl := orElse (env "LMSTUDIO_BASE_URL") "http://localhost:1234";
       apiPath := "/v1/chat/completions";
       envVar := "LMSTUDIO_BASE_URL";
       apiKeyEnvVar := "LMSTUDIO_API_KEY";
       prefixes := ["lmstudio/"; "lmstudio:"; "mlstudio/"; "mlstudio:"];
       capabilities := defaultCapabilities true |};
    {| name := "vllm";
       baseUrl := orElse (env "VLLM_BASE_URL") "http://localhost:8000";
       apiPath := "/v1/chat/completions";
       envVar := "VLLM_BASE_URL";
       apiKeyEnvVar := "VLLM_API_KEY";
       prefixes := ["vllm/"; "vllm:"];
       capabilities := defaultCapabilities true |};
    {| name := "mlx";
       baseUrl := orElse (env "MLX_BASE_URL") "http://127.0.0.1:8080";
       apiPath := "/v1/chat/completions";
       envVar := "MLX_BASE_URL";
       apiKeyEnvVar := "MLX_API_KEY";
       prefixes := ["mlx/"; "mlx:"];
       capabilities := defaultCapabilities false |} ].

Definition getRegisteredProviders : list LocalProvider := getProviders.

(** The inner loop of [resolveProvider]: the first prefix of the provider
    the id starts with. *)
Fixpoint matchPrefix (modelId : string) (pres : list string) : option string :=
  match pres with
  | [] => None
  | pre :: pres' =>
      if startsWith modelId pre then Some pre else matchPrefix modelId pres'
  end.

(** The outer loop. *)
Fixpoint resolveIn (providers : list LocalProvider) (modelId : string)
  : option ResolvedProvider :=
  match providers with
  | [] => None
  | p :: ps =>
      match matchPrefix modelId (prefixes p) with
      | Some pre =>
          Some {| provider := p; modelName := slice (String.length pre) modelId |}
      | None => resolveIn ps modelId
      end
  end.

Definition resolveProvider (modelId : string) : option ResolvedProvider :=
  resolveIn getProviders modelId.

(** [url.pathname.split("/").filter(Boolean)] *)
Definition pathParts (u : URL) : list string :=
  filter nonEmpty (split "/"%char (pathname u)).

Definition parseUrlModel (modelId : string) : option UrlParsedModel :=
  if negb (startsWith modelId "http://") && negb (startsWith modelId "https://")
  then None
  else
    match URL_new modelId with
    | None => None
    | Some url =>
        let parts := pathParts url in
        if (List.length parts =? 0)%nat then None
        else
          let modelName := last parts EmptyString in
          let basePath :=
            if (1 <? List.length parts)%nat then
              let prefix := String.concat "/" (removelast parts) in
              if nonEmpty prefix then "/" ++ prefix else ""
            else "" in
          Some {| parsedBaseUrl := protocol url ++ "//" ++ host url ++ basePath;
                  parsedModelName := modelName |}
    end.

Definition createUrlProvider (parsed : UrlParsedModel) : LocalProvider :=
  {| name := "custom-url";
     baseUrl := parsedBaseUrl parsed;
     apiPath := "/v1/chat/completions";
     envVar := "";
     apiKeyEnvVar := "";
     prefixes := [];
     capabilities := defaultCapabilities true |}.

Definition hasCustomBaseUrl : bool :=
  match env "CLAUDISH_BASE_URL" with
  | Some s => nonEmpty s
  | None => false
  end.

Definition getCustomBaseUrl : option string := env "CLAUDISH_BASE_URL".

Definition isLocalProvider (modelId : string) : bool :=
  match resolveProvider modelId with
  | Some _ => true
  | None =>
      match parseUrlModel modelId with
      | Some _ => true
      | None => if hasCustomBaseUrl then true else false
      end
  end.

Definition createCustomBaseUrlProvider (modelName : string)
  : option ResolvedProvider :=
  match env "CLAUDISH_BASE_URL" with
  | None => None
  | Some baseUrl =>
      if negb (nonEmpty baseUrl) then None
      else
        let normalizedUrl := stripTrailingSlashes baseUrl in
        let normalizedUrl :=
          if endsWith normalizedUrl "/chat/completions"
          then removeSuffix normalizedUrl "/chat/completions"
          else normalizedUrl in
        Some {| provider :=
                  {| name := "custom-base-url";
                     baseUrl := normalizedUrl;
                     apiPath := "/chat/completions";
                     envVar := "CLAUDISH_BASE_URL";
                     apiKeyEnvVar := "";
                     prefixes := [];
                     capabilities := defaultCapabilities true |};
                modelName := modelName |}
  end.

End WithPlatform.

(** For the statements about [parseUrlModel]: the leading segments as
    they stand in the base URL, each after a slash. *)
Definition slashed (leading : list string) : string :=
  fold_right (fun seg acc => "/" ++ seg ++ acc) "" leading.

End Registry.

(* ===================================================================== *)
(** * JavaScript values *)
(* ===================================================================== *)

Module JS.
Import JSString.

(** A [number]: a finite value, as the rational it denotes, or [NaN]. *)
Inductive Number :=
| Fin (q : Q)
| NaN.

#[warnings="-register-all"] Inductive JSValue :=
| Undefined
| Null
| Bool (b : bool)
| Num (n : Number)
| Str (s : string)
| Arr (items : list JSValue)
| Obj (props : list (string * JSValue)).

Definition num (z : Z) : JSValue := Num (Fin (inject_Z z)).

(** [Boolean(v)] *)
Definition truthy (v : JSValue) : bool :=
  match v with
  | Undefined | Null => false
  | Bool b => b
  | Num (Fin q) => negb (Qnum q =? 0)%Z
  | Num NaN => false
  | Str s => nonEmpty s
  | Arr _ | Obj _ => true
  end.

Definition nullish (v : JSValue) : bool :=
  match v with
  | Undefined | Null => true
  | _ => false
  end.

Definition isUndefined (v : JSValue) : bool :=
  match v with
  | Undefined => true
  | _ => false
  end.

(** [a || b] and [a ?? b] *)
Definition logicalOr (a b : JSValue) : JSValue := if truthy a then a else b.
Definition nullishOr (a b : JSValue) : JSValue := if nullish a then b else a.

(** [v === "s"] *)
Definition isStr (v : JSValue) (s : string) : bool :=
  match v with
  | Str t => String.eqb t s
  | _ => false
  end.

Fixpoint lookup (k : string) (props : list (string * JSValue)) : JSValue :=
  match props with
  | [] => Undefined
  | (k', v) :: props' => if String.eqb k k' then v else lookup k props'
  end.

(** [v.k] (or [v?.k]) for a key that no prototype defines: the own property
    of an object, [undefined] on anything else. Reading a property of
    [null] or [undefined] without [?.] throws; the callers below guard
    those reads where the source can meet them. *)
Definition getProp (v : JSValue) (k : string) : JSValue :=
  match v with
  | Obj props => lookup k props
  | _ => Undefined
  end.

Fixpoint assign (k : string) (v : JSValue) (props : list (string * JSValue))
  : list (string * JSValue) :=
  match props with
  | [] => [(k, v)]
  | (k', v') :: props' =>
      if String.eqb k k' then (k, v) :: props' else (k', v') :: assign k v props'
  end.

(** [o.k = v] *)
Definition setProp (o : JSValue) (k : string) (v : JSValue) : JSValue :=
  match o with
  | Obj props => Obj (assign k v props)
  | _ => o
  end.

(** [JSON.stringify] writes a property of an object unless its value is
    [undefined]: whether the text written for [v] has a field [k]. *)
Definition hasField (v : JSValue) (k : string) : bool :=
  negb (isUndefined (getProp v k)).

(** [v.includes]: the method of strings and of arrays; [None] when [v] has
    none, so that calling it is a [TypeError]. *)
Definition includesOf (v : JSValue) : option (string -> bool) :=
  match v with
  | Str s => Some (includes s)
  | Arr items => Some (fun needle => existsb (fun x => isStr x needle) items)
  | _ => None
  end.

(** [Math.round]: to the nearest integer, halves upwards. *)
Definition Math_round (x : Q) : Z := Qfloor (x + (1 # 2)).

End JS.

(* ===================================================================== *)
(** * The local provider handler *)
(* ===================================================================== *)

Module Handler.
Import JSString JS Registry.

(** ** The world the handler acts on *)

Record HttpRequest := {
  method : string;
  url : string;
  body : option JSValue      (* the value handed to [JSON.stringify] *)
}.

Record HttpResponse := {
  status : Z;
  text : string
}.

(** [response.ok]: a status in the range 200-299. *)
Definition ok (r : HttpResponse) : bool :=
  ((200 <=? status r) && (status r <=? 299))%Z.

(** What [await fetch(...)] does: it throws an error or yields a response. *)
Inductive FetchResult :=
| Rejected (error : JSValue)
| Responded (response : HttpResponse).

(** The private fields of [LocalProviderHandler] that change. *)
Record HandlerState := {
  healthChecked : bool;
  isHealthy : bool;
  contextWindow : Number;
  sessionInputTokens : Z;
  sessionOutputTokens : Z
}.

Record FileWrite := {
  path : string;
  data : JSValue             (* the value handed to [JSON.stringify] *)
}.

Record World := {
  this : HandlerState;
  sent : list HttpRequest;   (* every [fetch] so far, oldest first *)
  written : list FileWrite   (* every [writeFileSync] so far, oldest first *)
}.

(** What [handle] gives back: the response [c.json(body, status)] built,
    the response of the streaming handler, or an exception. *)
Inductive Outcome :=
| Json (status : Z) (headers : list (string * string)) (body : JSValue)
| Streamed (headers : list (string * string)) (upstream : HttpResponse)
| Thrown (error : JSValue).

(** The statuses of a response that has no body. *)
Definition nullBodyStatus (status : Z) : bool :=
  ((status =? 101) || (status =? 103) || (status =? 204) || (status =? 205)
   || (status =? 304))%Z.


(** [c.json(body, status)] builds [new Response(text, {status, headers})],
    and that constructor throws a [RangeError] for a status outside
    200..599 and a [TypeError] for a body with a status that has none. *)
Definition c_json (status : Z) (headers : list (string * string))
  (body : JSValue) : Outcome :=
  if negb ((200 <=? status) && (status <=? 599))%Z then
    Thrown (Obj [("name", Str "RangeError")])
  else if nullBodyStatus status then
    Thrown (Obj [("name", Str "TypeError")])
  else Json status headers body.

(** What a [try] block returns: [None] when it throws. *)
Definition returned (o : Outcome) : option Outcome :=
  match o with
  | Thrown _ => None
  | _ => Some o
  end.

(** The fields as the constructor leaves them. *)
Definition initial : HandlerState :=
  {| healthChecked := false; isHealthy := false;
     contextWindow := Fin 8192;
     sessionInputTokens := 0; sessionOutputTokens := 0 |}.

Definition newWorld : World :=
  {| this := initial; sent := []; written := [] |}.

(** ** The regular expression [/num_ctx\s+(\d+)/] *)

Definition isSpace (c : ascii) : bool :=
  let n := nat_of_ascii c in
  ((9 <=? n) && (n <=? 13) || (n =? 32) || (n =? 160))%nat.

Definition isDigit (c : ascii) : bool :=
  let n := nat_of_ascii c in
  ((48 <=? n) && (n <=? 57))%nat.

Fixpoint takeWhile (f : ascii -> bool) (s : string) : string :=
  match s with
  | EmptyString => EmptyString
  | String c s' => if f c then String c (takeWhile f s') else EmptyString
  end.

Fixpoint dropWhile (f : ascii -> bool) (s : string) : string :=
  match s with
  | EmptyString => EmptyString
  | String c s' => if f c then dropWhile f s' else s
  end.

(** A match that starts at the first unit of [s]: its first group. *)
Definition matchNumCtxHere (s : string) : option string :=
  if startsWith s "num_ctx" then
    let rest := slice 7 s in
    let spaces := takeWhile isSpace rest in
    let digits := takeWhile isDigit (dropWhile isSpace rest) in
    if nonEmpty spaces && nonEmpty digits then Some digits else None
  else None.

(** [s.match(/num_ctx\s+(\d+)/)?.[1]]: the first group of the leftmost
    match. *)
Fixpoint matchNumCtx (s : string) : option string :=
  match matchNumCtxHere s with
  | Some digits => Some digits
  | None =>
      match s with
      | EmptyString => None
      | String _ s' => matchNumCtx s'
      end
  end.

Section WithHandler.

(** The arguments of the constructor. *)
Variable provider : LocalProvider.
Variable modelName : string.
Variable port : Z.

(** The platform. [backend] answers a request from the requests sent before
    it; [JSON_parse] is [None] when the text is not JSON; [parseInt10 v] is
    [parseInt(v, 10)]. *)
Variable tmpdir : string.
Variable backend : list HttpRequest -> HttpRequest -> FetchResult.
Variable JSON_parse : string -> option JSValue.
Variable parseInt10 : JSValue -> Number.

(** The helpers of the repository whose code is not at hand; exceptions
    they may raise are outside the model. [prepareRequest] changes the
    payload in place: it maps the payload to what it is afterwards. *)
Variable transformOpenAIToClaude : JSValue -> JSValue * list string.
Variable convertMessagesToOpenAI : JSValue -> string -> list JSValue.
Variable convertToolsToOpenAI : JSValue -> list JSValue.
Variable prepareRequest : JSValue -> JSValue -> JSValue.

Local Abbreviation M := (state World).

Definition fetch (rq : HttpRequest) : M FetchResult :=
  w <- get ;;
  put {| this := this w; sent := sent w ++ [rq]; written := written w |} ;;
  ret (backend (sent w) rq).

Definition modify_this (f : HandlerState -> HandlerState) : M unit :=
  w <- get ;;
  put {| this := f (this w); sent := sent w; written := written w |}.

Definition setHealth (healthy : bool) : M unit :=
  modify_this (fun h =>
    {| healthChecked := true; isHealthy := healthy;
       contextWindow := contextWindow h;
       sessionInputTokens := sessionInputTokens h;
       sessionOutputTokens := sessionOutputTokens h |}).

Definition setContextWindow (n : Number) : M unit :=
  modify_this (fun h =>
    {| healthChecked := healthChecked h; isHealthy := isHealthy h;
       contextWindow := n;
       sessionInputTokens := sessionInputTokens h;
       sessionOutputTokens := sessionOutputTokens h |}).

Definition GET (u : string) : HttpRequest :=
  {| method := "GET"; url := u; body := None |}.

Definition POST (u : string) (b : JSValue) : HttpRequest :=
  {| method := "POST"; url := u; body := Some b |}.

(** A probe that runs into the timeout of five seconds is a [fetch] that
    throws. The second probe is in the [catch] of the first: it is made
    when the first throws, not when it is answered. *)
Definition checkHealth : M bool :=
  w <- get ;;
  if healthChecked (this w) then ret (isHealthy (this w))
  else
    r <- fetch (GET (baseUrl provider ++ "/api/tags")) ;;
    match r with
    | Responded response =>
        if ok response then setHealth true ;; ret true
        else setHealth false ;; ret false
    | Rejected _ =>
        r2 <- fetch (GET (baseUrl provider ++ "/v1/models")) ;;
        match r2 with
        | Responded response =>
            if ok response then setHealth true ;; ret true
            else setHealth false ;; ret false
        | Rejected _ => setHealth false ;; ret false
        end
    end.

(** The body of the [if (response.ok)] of [fetchContextWindow], from the
    parsed response on: the new context window, or [None] when an
    exception is thrown before the assignment. *)
Definition contextFromShow (data : JSValue) : option Number :=
  if nullish data then None
  else
    let model_info := getProp data "model_info" in
    let ctxFromInfo :=
      if nullish model_info then Undefined
      else getProp model_info "general.context_length" in
    let parameters := getProp data "parameters" in
    let matched :=
      if nullish parameters then Some Undefined
      else match parameters with
           | Str s => Some (match matchNumCtx s with
                            | Some digits => Str digits
                            | None => Undefined
                            end)
           | _ => None
           end in
    match matched with
    | None => None
    | Some ctxFromParams =>
        Some (if truthy ctxFromInfo then parseInt10 ctxFromInfo
              else if truthy ctxFromParams then parseInt10 ctxFromParams
              else Fin 8192)
    end.

Definition fetchContextWindow : M unit :=
  if negb (String.eqb (name provider) "ollama") then ret tt
  else
    r <- fetch (POST (baseUrl provider ++ "/api/show")
                     (Obj [("name", Str modelName)])) ;;
    match r with
    | Responded response =>
        if ok response then
          match JSON_parse (text response) with
          | Some parsed =>
              match contextFromShow parsed with
              | Some n => setContextWindow n
              | None => ret tt
              end
          | None => ret tt
          end
        else ret tt
    | Rejected _ => ret tt
    end.

(** ** The token file *)

Definition decimal (z : Z) : string := NilZero.string_of_int (Z.to_int z).

Definition tokenFilePath : string :=
  tmpdir ++ "/claudish-tokens-" ++ decimal port ++ ".json".

(** [leftPct] of [writeTokenFile]. *)
Definition leftPct (contextWindow : Number) (total : Z) : Z :=
  match contextWindow with
  | Fin cw =>
      if negb (Qle_bool cw 0) then
        Z.max 0 (Z.min 100
          (Math_round (((cw - inject_Z total) / cw) * inject_Z 100)))
      else 100
  | NaN => 100
  end.

(** [now] is what [Date.now()] returns during the call. An exception of
    [writeFileSync] is swallowed by the source; [written] records the
    calls. *)
Definition writeTokenFile (now : Z) (input output : Z) : M unit :=
  w <- get ;;
  let h := this w in
  let sessionIn := (sessionInputTokens h + input)%Z in
  let sessionOut := (sessionOutputTokens h + output)%Z in
  let total := (sessionIn + sessionOut)%Z in
  let pct := leftPct (contextWindow h) total in
  let data :=
    Obj [ ("input_tokens", num sessionIn);
          ("output_tokens", num sessionOut);
          ("total_tokens", num total);
          ("total_cost", num 0);
          ("context_window", Num (contextWindow h));
          ("context_left_percent", num pct);
          ("updated_at", num now) ] in
  put {| this := {| healthChecked := healthChecked h;
                    isHealthy := isHealthy h;
                    contextWindow := contextWindow h;
                    sessionInputTokens := sessionIn;
                    sessionOutputTokens := sessionOut |};
         sent := sent w;
         written := written w ++ [ {| path := tokenFilePath; data := data |} ] |}.

(** ** Error replies *)

Definition errorResponse (type : string) (message : JSValue) (status : Z)
  : Outcome :=
  c_json status []
    (Obj [("error", Obj [("type", Str type); ("message", message)])]).

Definition getConnectionErrorMessage : string :=
  if String.eqb (name provider) "ollama" then
    "Cannot connect to Ollama at " ++ baseUrl provider
      ++ ". Make sure Ollama is running with: ollama serve"
  else if String.eqb (name provider) "lmstudio" then
    "Cannot connect to LM Studio at " ++ baseUrl provider
      ++ ". Make sure LM Studio server is running."
  else if String.eqb (name provider) "vllm" then
    "Cannot connect to vLLM at " ++ baseUrl provider
      ++ ". Make sure vLLM server is running."
  else
    "Cannot connect to " ++ name provider ++ " at " ++ baseUrl provider
      ++ ". Make sure the server is running.".

Definition getModelPullHint : string :=
  if String.eqb (name provider) "ollama" then
    "Pull it with: ollama pull " ++ modelName
  else "Make sure the model is available on the server.".

(** [parsed.error?.message || parsed.error || errorBody]; [None] when
    reading [parsed.error] throws. *)
Definition errorMsgOf (parsed : JSValue) (errorBody : string) : option JSValue :=
  if nullish parsed then None
  else
    let error := getProp parsed "error" in
    let message := if nullish error then Undefined else getProp error "message" in
    Some (logicalOr message (logicalOr error (Str errorBody))).

Definition capabilityMessage : string :=
  "Model '" ++ modelName
    ++ "' does not support tool/function calling. Claude Code requires tool support for most operations. Try a model that supports tools (e.g., llama3.2, mistral, qwen2.5).".

(** The [try] block of [handleErrorResponse]; [None] when it throws, in
    reading the message or in building the reply. *)
Definition handleErrorResponseTry (status : Z) (errorBody : string)
  : option Outcome :=
  match JSON_parse errorBody with
  | None => None
  | Some parsed =>
      match errorMsgOf parsed errorBody with
      | None => None
      | Some errorMsg =>
          match includesOf errorMsg with
          | None => None
          | Some inc =>
              if inc "model" && (inc "not found" || inc "does not exist") then
                returned (errorResponse "model_not_found"
                            (Str ("Model '" ++ modelName ++ "' not found. "
                                    ++ getModelPullHint)) 503)
              else if inc "does not support tools"
                      || inc "tool" && inc "not supported" then
                returned (errorResponse "capability_error"
                            (Str capabilityMessage) 400)
              else returned (errorResponse "api_error" errorMsg status)
          end
      end
  end.

Definition handleErrorResponse (status : Z) (errorBody : string) : Outcome :=
  match handleErrorResponseTry status errorBody with
  | Some reply => reply
  | None => errorResponse "api_error" (Str errorBody) status
  end.

(** ** The request *)

(** [error.code === "ECONNREFUSED" || error.cause?.code === "ECONNREFUSED"] *)
Definition connectionRefused (error : JSValue) : bool :=
  isStr (getProp error "code") "ECONNREFUSED"
  || isStr (getProp (getProp error "cause") "code") "ECONNREFUSED".

Definition finalToolsOf (tools : list JSValue) : list JSValue :=
  if supportsTools (capabilities provider) then tools else [].

(** The object literal [openAIPayload]. *)
Definition buildPayload (claudeRequest : JSValue) (messages finalTools : list JSValue)
  : JSValue :=
  Obj [ ("model", Str modelName);
        ("messages", Arr messages);
        ("temperature", nullishOr (getProp claudeRequest "temperature") (num 1));
        ("stream", Bool (supportsStreaming (capabilities provider)));
        ("max_tokens", getProp claudeRequest "max_tokens");
        ("tools", if (0 <? List.length finalTools)%nat then Arr finalTools
                  else Undefined);
        ("stream_options",
           if supportsStreaming (capabilities provider)
           then Obj [("include_usage", Bool true)] else Undefined) ].

(** The [if] on [claudeRequest.tool_choice]. *)
Definition withToolChoice (claudeRequest : JSValue) (finalTools : list JSValue)
  (openAIPayload : JSValue) : JSValue :=
  let tool_choice := getProp claudeRequest "tool_choice" in
  if truthy tool_choice && (0 <? List.length finalTools)%nat then
    let type := getProp tool_choice "type" in
    let name := getProp tool_choice "name" in
    if isStr type "tool" && truthy name then
      setProp openAIPayload "tool_choice"
        (Obj [("type", Str "function"); ("function", Obj [("name", name)])])
    else if isStr type "auto" || isStr type "none" then
      setProp openAIPayload "tool_choice" type
    else openAIPayload
  else openAIPayload.

(** [openAIPayload] as it is when [fetch] serialises it. *)
Definition outboundPayload (payload : JSValue) : JSValue :=
  let claudeRequest := fst (transformOpenAIToClaude payload) in
  let messages := convertMessagesToOpenAI claudeRequest modelName in
  let tools := convertToolsToOpenAI claudeRequest in
  let finalTools := finalToolsOf tools in
  prepareRequest
    (withToolChoice claudeRequest finalTools
       (buildPayload claudeRequest messages finalTools))
    claudeRequest.

Definition droppedHeaders (droppedParams : list string) : list (string * string) :=
  if (0 <? List.length droppedParams)%nat
  then [("X-Dropped-Params", String.concat ", " droppedParams)]
  else [].

(** The health gate of [handle]: [true] when the request may go on. *)
Definition healthGate : M bool :=
  w <- get ;;
  if negb (healthChecked (this w)) then
    healthy <- checkHealth ;;
    if negb healthy then ret false
    else fetchContextWindow ;; ret true
  else ret true.

(** The request [handle] forwards. Between building the payload and
    [fetch], the source resets the adapter, lets it prepare the request
    (inside [outboundPayload]) and tells the middleware, which gets the
    messages and the tools but not the payload; logging is left out
    everywhere. *)
Definition chatRequest (payload : JSValue) : HttpRequest :=
  POST (baseUrl provider ++ apiPath provider) (outboundPayload payload).

(** The [catch] of [handle]. *)
Definition caught (error : JSValue) : Outcome :=
  if connectionRefused error then
    errorResponse "connection_error" (Str getConnectionErrorMessage) 503
  else Thrown error.

(** The [try] block of [handle] from the answer of [fetch] on, with its
    [catch]; what [handleErrorResponse] throws is thrown inside the
    block. *)
Definition reply (payload : JSValue) (r : FetchResult) : Outcome :=
  let droppedParams := snd (transformOpenAIToClaude payload) in
  match r with
  | Rejected error => caught error
  | Responded response =>
      if negb (ok response) then
        match handleErrorResponse (status response) (text response) with
        | Thrown error => caught error
        | replied => replied
        end
      else if truthy (getProp (outboundPayload payload) "stream") then
        Streamed (droppedHeaders droppedParams) response
      else
        match JSON_parse (text response) with
        | Some parsed => Json 200 (droppedHeaders droppedParams) parsed
        | None => Thrown (Obj [("name", Str "SyntaxError")])
        end
  end.

Definition handle (payload : JSValue) : M Outcome :=
  pass <- healthGate ;;
  if negb pass then
    ret (errorResponse "connection_error" (Str getConnectionErrorMessage) 503)
  else
    r <- fetch (chatRequest payload) ;;
    ret (reply payload r).

(** ** The life of a handler *)

(** What happens to a handler: a request arrives, or the streaming handler
    reports the tokens of a finished response through the callback it got
    from [handle] ([now] is the clock at that moment). *)
Inductive Call :=
| Request (payload : JSValue)
| TokenUpdate (now input output : Z).

Definition call (c : Call) : M unit :=
  match c with
  | Request payload => handle payload ;; ret tt
  | TokenUpdate now input output => writeTokenFile now input output
  end.

Fixpoint calls (cs : list Call) : M unit :=
  match cs with
  | [] => ret tt
  | c :: cs' => call c ;; calls cs'
  end.

(** ** Vocabulary of the statements *)

(** The error message [handleErrorResponse] works on: the message of a
    body that is JSON, when [includes] can be called on it. *)
Definition errorMessage (errorBody : string) : option JSValue :=
  match JSON_parse errorBody with
  | None => None
  | Some parsed =>
      match errorMsgOf parsed errorBody with
      | None => None
      | Some errorMsg =>
          match includesOf errorMsg with
          | None => None
          | Some _ => Some errorMsg
          end
      end
  end.

Definition mentions (msg : JSValue) (needle : string) : bool :=
  match includesOf msg with
  | Some inc => inc needle
  | None => false
  end.

Definition modelNotFoundText (msg : JSValue) : bool :=
  mentions msg "model"
  && (mentions msg "not found" || mentions msg "does not exist").

Definition toolsUnsupportedText (msg : JSValue) : bool :=
  mentions msg "does not support tools"
  || mentions msg "tool" && mentions msg "not supported".

(** What a request leaves alone: the files, the token counters and, for a
    provider other than ollama, the context window. *)
Definition untouched (w w' : World) : Prop :=
  written w' = written w
  /\ sessionInputTokens (this w') = sessionInputTokens (this w)
  /\ sessionOutputTokens (this w') = sessionOutputTokens (this w)
  /\ (name provider <> "ollama" ->
      contextWindow (this w') = contextWindow (this w)).

(** The name by which a connection error calls the provider. *)
Definition providerLabel : string :=
  if String.eqb (name provider) "ollama" then "Ollama"
  else if String.eqb (name provider) "lmstudio" then "LM Studio"
  else if String.eqb (name provider) "vllm" then "vLLM"
  else name provider.

End WithHandler.

(** The type of a reply of the shape [{error: {type, message}}]. *)
Definition errorType (o : Outcome) : JSValue :=
  match o with
  | Json _ _ body => getProp (getProp body "error") "type"
  | _ => Undefined
  end.

(** A message names a start command when it ends in [with: <command>]. *)
Definition namesStartCommand (message : string) : Prop :=
  exists before command,
    command <> "" /\ message = before ++ " with: " ++ command.




(** How many of some calls are token updates. *)
Definition tokenUpdates (cs : list Call) : nat :=
  List.length (filter (fun c => match c with
                                | TokenUpdate _ _ _ => true
                                | Request _ => false
                                end) cs).

End Handler.

(* ===================================================================== *)
(** * The port finder *)
(* ===================================================================== *)

Module Ports.

Section WithPlatform.

(** What [Math.random()] returns in the call: a number in [0, 1). *)
Variable random : Q.

(** [isPortAvailable]: the answer of the [n]-th probe of the call (counted
    from 0) when it is asked about a port. *)
Variable isPortAvailable : nat -> Z -> bool.

(** The sequential search: [rounds] ports from [port] upwards; [probe] counts
    the probes made before. *)
Fixpoint searchFrom (rounds probe : nat) (port : Z) : option Z :=
  match rounds with
  | O => None
  | S rounds' =>
      if isPortAvailable probe port then Some port
      else searchFrom rounds' (S probe) (port + 1)
  end.

(** [None] stands for the [Error] thrown when no port is free. The loop
    [for (port = startPort; port <= endPort; port++)] makes
    [endPort - startPort + 1] rounds (none when that is not positive). *)
Definition findAvailablePortIn (startPort endPort : Z) : option Z :=
  let randomPort :=
    (Qfloor (random * inject_Z (endPort - startPort + 1)) + startPort)%Z in
  if isPortAvailable 0 randomPort then Some randomPort
  else searchFrom (Z.to_nat (endPort - startPort + 1)) 1 startPort.

(** The default arguments: [startPort = 3000, endPort = 9000]. *)
Definition findAvailablePort (startPort endPort : option Z) : option Z :=
  findAvailablePortIn
    (match startPort with Some s => s | None => 3000%Z end)
    (match endPort with Some e => e | None => 9000%Z end).

End WithPlatform.

(** What [server.listen(port, "127.0.0.1")] leads to: the [listening]
    event, or the [error] event with the code of the error, if it has
    one. *)
Inductive ListenResult :=
| Listening
| Failed (code : option string).

(** [isPortAvailable] on the outcome of the bind; [listen n port] is the
    outcome of the [n]-th bind when it is for [port]. *)
Definition isPortAvailable (listen : nat -> Z -> ListenResult)
  (n : nat) (port : Z) : bool :=
  match listen n port with
  | Listening => true
  | Failed (Some code) => negb (String.eqb code "EADDRINUSE")
  | Failed None => true
  end.

End Ports.

(* ===================================================================== *)
(** * Sample platforms *)
(* ===================================================================== *)

(** Concrete stand-ins for the platform, used where a property is run on
    an example. Each agrees with the platform on the inputs it is used
    at. *)
Module Samples.
Import JSString JS Registry.

(** An environment in which no variable is set. *)
Definition noEnv : string -> option string := fun _ => None.

(** An environment that names a chat-completions endpoint as the custom
    base URL, and one that names the root of a server. *)
Definition endpointEnv (k : string) : option string :=
  if String.eqb k "CLAUDISH_BASE_URL"
  then Some "http://localhost:9999/v1/chat/completions//"
  else None.

Definition rootEnv (k : string) : option string :=
  if String.eqb k "CLAUDISH_BASE_URL" then Some "http://localhost:9999/v1/"
  else None.

(** [new URL] on the two URLs of the examples. *)
Definition sampleURL (s : string) : option URL :=
  if String.eqb s "http://localhost:11434/v1/llama3" then
    Some {| protocol := "http:"; host := "localhost:11434";
            pathname := "/v1/llama3" |}
  else if String.eqb s "https://example.com" then
    Some {| protocol := "https:"; host := "example.com"; pathname := "/" |}
  else None.

(** The registered providers of that environment. *)
Definition registered (n : nat) : LocalProvider :=
  nth n (getProviders noEnv)
    (createUrlProvider {| parsedBaseUrl := ""; parsedModelName := "" |}).

Definition ollama : LocalProvider := registered 0.
Definition lmstudio : LocalProvider := registered 1.
Definition mlx : LocalProvider := registered 3.

(** JSON texts; the quote is built from its code. *)
Definition quoted (s : string) : string :=
  String (ascii_of_nat 34) s ++ String (ascii_of_nat 34) "".

(** [{"error":{"message":"<message>"}}] *)
Definition errorBodyOf (message : string) : string :=
  "{" ++ quoted "error" ++ ":{" ++ quoted "message" ++ ":" ++ quoted message
      ++ "}}".

Definition notFoundMessage : string :=
  "model 'llama3' not found, try pulling it first".
Definition noToolsMessage : string :=
  "registry.ollama.ai/library/gemma:2b does not support tools".
Definition bothMessage : string :=
  "model 'qwen' does not support tools: tool template not found".
Definition overloadedMessage : string := "server overloaded".

(** [{"model_info":{"general.context_length":131072},"parameters":"num_ctx 4096"}] *)
Definition showBody : string :=
  "{" ++ quoted "model_info" ++ ":{" ++ quoted "general.context_length"
      ++ ":131072}," ++ quoted "parameters" ++ ":" ++ quoted "num_ctx 4096" ++ "}".

(** [{"parameters":"temperature 0.7\nnum_ctx    4096"}], the line break as
    the escape it is in JSON. *)
Definition showBodyParams : string :=
  "{" ++ quoted "parameters" ++ ":"
      ++ quoted ("temperature 0.7" ++ String (ascii_of_nat 92) "nnum_ctx    4096")
      ++ "}".

Definition errorObject (message : string) : JSValue :=
  Obj [("error", Obj [("message", Str message)])].

(** [JSON.parse] on the texts above; any other text of the examples is
    not JSON. *)
Definition sampleParse (s : string) : option JSValue :=
  if String.eqb s (errorBodyOf notFoundMessage) then
    Some (errorObject notFoundMessage)
  else if String.eqb s (errorBodyOf noToolsMessage) then
    Some (errorObject noToolsMessage)
  else if String.eqb s (errorBodyOf bothMessage) then
    Some (errorObject bothMessage)
  else if String.eqb s (errorBodyOf overloadedMessage) then
    Some (errorObject overloadedMessage)
  else if String.eqb s showBody then
    Some (Obj [ ("model_info", Obj [("general.context_length", num 131072)]);
                ("parameters", Str "num_ctx 4096") ])
  else if String.eqb s showBodyParams then
    Some (Obj [ ("parameters",
                 Str ("temperature 0.7" ++ String (ascii_of_nat 10) "num_ctx    4096")) ])
  else None.

(** [parseInt(v, 10)] on a number that is an integer and on the digits
    of the examples. *)
Definition sampleParseInt (v : JSValue) : Number :=
  match v with
  | Num n => n
  | Str s => if String.eqb s "4096" then Fin (inject_Z 4096) else NaN
  | _ => NaN
  end.

(** The helpers that are not at hand, for requests as plain as those of
    the examples: nothing to normalise, the messages as they are, each
    tool wrapped as a function, an adapter that changes nothing. *)
Definition sampleTransform (payload : JSValue) : JSValue * list string :=
  (payload, []).

Definition sampleMessages (claudeRequest : JSValue) (model : string)
  : list JSValue :=
  match getProp claudeRequest "messages" with
  | Arr items => items
  | _ => []
  end.

Definition sampleTools (claudeRequest : JSValue) : list JSValue :=
  match getProp claudeRequest "tools" with
  | Arr items =>
      map (fun tool =>
             Obj [ ("type", Str "function");
                   ("function",
                    Obj [ ("name", getProp tool "name");
                          ("description", getProp tool "description");
                          ("parameters", getProp tool "input_schema") ]) ])
          items
  | _ => []
  end.

Definition sampleAdapter (openAIPayload claudeRequest : JSValue) : JSValue :=
  openAIPayload.

(** Backends. [refused]: nothing listens; [scripted tags show chat]: the
    answers to a GET, to the show request and to the chat request. *)
Definition refused : Handler.FetchResult :=
  Handler.Rejected
    (Obj [ ("message", Str "fetch failed");
           ("cause", Obj [("code", Str "ECONNREFUSED")]) ]).

Definition down (history : list Handler.HttpRequest) (rq : Handler.HttpRequest)
  : Handler.FetchResult := refused.

Definition scripted (tags show chat : Handler.FetchResult)
  (history : list Handler.HttpRequest) (rq : Handler.HttpRequest)
  : Handler.FetchResult :=
  if String.eqb (Handler.method rq) "GET" then tags
  else if includes (Handler.url rq) "/api/show" then show
  else chat.

Definition answer (status : Z) (text : string) : Handler.FetchResult :=
  Handler.Responded {| Handler.status := status; Handler.text := text |}.

(** The handler and its payload on this platform. *)
Definition sampleHandle (provider : LocalProvider) (model : string)
  (backend : list Handler.HttpRequest -> Handler.HttpRequest -> Handler.FetchResult)
  (payload : JSValue) : state Handler.World Handler.Outcome :=
  Handler.handle provider model backend sampleParse sampleParseInt
    sampleTransform sampleMessages sampleTools sampleAdapter payload.

Definition sampleOutbound (provider : LocalProvider) (model : string)
  (payload : JSValue) : JSValue :=
  Handler.outboundPayload provider model sampleTransform sampleMessages
    sampleTools sampleAdapter payload.

(** A backend that is up, with its answer to the chat request. *)
Definition up (chat : Handler.FetchResult)
  : list Handler.HttpRequest -> Handler.HttpRequest -> Handler.FetchResult :=
  scripted (answer 200 "") (answer 200 showBody) chat.

(** Requests of a client. *)
Definition readTool : JSValue :=
  Obj [ ("name", Str "Read"); ("description", Str "Reads a file");
        ("input_schema", Obj [("type", Str "object")]) ].

Definition plainRequest : JSValue :=
  Obj [ ("model", Str "m"); ("max_tokens", num 100);
        ("messages", Arr [Obj [("role", Str "user"); ("content", Str "What is 2+2?")]]);
        ("stream", Bool false) ].

Definition toolRequest (tool_choice : JSValue) : JSValue :=
  Obj [ ("model", Str "m"); ("max_tokens", num 100);
        ("messages", Arr [Obj [("role", Str "user"); ("content", Str "Read x.ts")]]);
        ("tools", Arr [readTool]);
        ("tool_choice", tool_choice);
        ("stream", Bool true) ].

End Samples.

(* ===================================================================== *)
(** * Facts about strings *)
(* ===================================================================== *)

Module JSStringFacts.
Import JSString.

Lemma append_assoc (a b c : string) : (a ++ b) ++ c = a ++ (b ++ c).
Proof.
  induction a as [|x a IH]; simpl; [reflexivity|]. now rewrite IH.
Qed.

Lemma prefix_nil (s : string) : String.prefix "" s = true.
Proof. destruct s; reflexivity. Qed.

Lemma prefix_app (p r : string) : String.prefix p (p ++ r) = true.
Proof.
  induction p as [|x p IH]; simpl; [apply prefix_nil|].
  destruct (ascii_dec x x) as [_|N]; [exact IH | now elim N].
Qed.

(** A string that starts with [p] is [p] followed by its slice. *)
Lemma startsWith_split (s p : string) :
  startsWith s p = true -> s = p ++ slice (String.length p) s.
Proof.
  unfold startsWith. revert s.
  induction p as [|x p IH]; intros s H; simpl.
  - reflexivity.
  - destruct s as [|y s]; simpl in H; [discriminate|].
    destruct (ascii_dec x y) as [->|_]; [|discriminate].
    now rewrite <- (IH s H).
Qed.

Lemma includes_prefix (hay needle : string) :
  String.prefix needle hay = true -> includes hay needle = true.
Proof. intros H. destruct hay; simpl in *; rewrite H; reflexivity. Qed.

(** [includes] finds every occurrence. *)
Lemma includes_app (a needle b : string) :
  includes (a ++ needle ++ b) needle = true.
Proof.
  induction a as [|x a IH]; simpl.
  - apply includes_prefix, prefix_app.
  - rewrite IH. apply orb_true_r.
Qed.

Lemma includes_occurs (hay needle : string) :
  includes hay needle = true -> exists a b, hay = a ++ needle ++ b.
Proof.
  induction hay as [|x hay IH]; simpl; intros H.
  - rewrite orb_false_r in H. destruct needle; [|discriminate].
    now exists "", "".
  - apply orb_true_iff in H. destruct H as [H|H].
    + exists "", (slice (String.length needle) (String x hay)).
      simpl. apply (startsWith_split (String x hay) needle H).
    + destruct (IH H) as (a & b & ->). now exists (String x a), b.
Qed.

End JSStringFacts.

(* ===================================================================== *)
(** * Properties of the registry *)
(* ===================================================================== *)

Module RegistryFacts.
Import JSString JSStringFacts Registry.

Section Resolution.

Variable env : string -> option string.

Lemma matchPrefix_none (modelId : string) (pres : list string) :
  (forall pre, In pre pres -> startsWith modelId pre = false) ->
  matchPrefix modelId pres = None.
Proof.
  induction pres as [|pre pres IH]; intros H; simpl; [reflexivity|].
  rewrite (H pre (or_introl eq_refl)).
  apply IH. intros pre' Hin. apply H. now right.
Qed.

Lemma resolveIn_none (providers : list LocalProvider) (modelId : string) :
  (forall p pre, In p providers -> In pre (prefixes p) ->
                 startsWith modelId pre = false) ->
  resolveIn providers modelId = None.
Proof.
  induction providers as [|p ps IH]; intros H; simpl; [reflexivity|].
  rewrite matchPrefix_none.
  - apply IH. intros q pre Hq. apply H. now right.
  - intros pre. apply H. now left.
Qed.

(** The registered prefixes exclude one another, so the first match of
    the two loops is the only one. *)
Lemma resolveProvider_registered (p : LocalProvider) (pre model : string) :
  In p (getProviders env) -> In pre (prefixes p) ->
  resolveProvider env (pre ++ model)
  = Some {| provider := p; modelName := model |}.
Proof.
  intros Hp Hpre. unfold resolveProvider.
  destruct model as [|c model]; simpl in Hp.
  all: repeat (destruct Hp as [<-|Hp]; [
    simpl in Hpre;
    repeat (destruct Hpre as [<-|Hpre]; [reflexivity|]);
    contradiction |]).
  all: contradiction.
Qed.

(** C2. A model id that starts with a registered prefix of a provider
    resolves to that provider and to the id without exactly that prefix;
    an id that starts with no registered prefix resolves to null. *)
Theorem resolveProvider_by_prefix (modelId : string) :
  (forall p pre,
      In p (getProviders env) -> In pre (prefixes p) ->
      startsWith modelId pre = true ->
      exists model,
        modelId = pre ++ model
        /\ model = slice (String.length pre) modelId
        /\ resolveProvider env modelId
           = Some {| provider := p; modelName := model |})
  /\ ((forall p pre,
          In p (getProviders env) -> In pre (prefixes p) ->
          startsWith modelId pre = false) ->
      resolveProvider env modelId = None).
Proof.
  split.
  - intros p pre Hp Hpre Hs.
    exists (slice (String.length pre) modelId).
    pose proof (startsWith_split modelId pre Hs) as E.
    split; [exact E|]. split; [reflexivity|].
    rewrite E at 1. now apply resolveProvider_registered.
  - intros H. now apply resolveIn_none.
Qed.

End Resolution.

Lemma resolveProvider_by_prefix_witness :
  (exists model,
      "ollama:llama3" = "ollama:" ++ model
      /\ model = slice (String.length "ollama:") "ollama:llama3"
      /\ resolveProvider Samples.noEnv "ollama:llama3"
         = Some {| provider := Samples.ollama; modelName := model |})
  /\ resolveProvider Samples.noEnv "gpt-4o" = None.
Proof.
  split.
  - apply (proj1 (resolveProvider_by_prefix Samples.noEnv "ollama:llama3")).
    + simpl. tauto.
    + simpl. tauto.
    + reflexivity.
  - apply (proj2 (resolveProvider_by_prefix Samples.noEnv "gpt-4o")).
    intros p pre Hp Hpre. simpl in Hp.
    repeat (destruct Hp as [<-|Hp]; [
      simpl in Hpre;
      repeat (destruct Hpre as [<-|Hpre]; [reflexivity|]);
      contradiction |]).
    contradiction.
Defined.

Section UrlModels.

Variable URL_new : string -> option URL.

Lemma concat_slashed (seg : string) (segs : list string) :
  "/" ++ String.concat "/" (seg :: segs) = slashed (seg :: segs).
Proof.
  revert seg. induction segs as [|seg' segs IH]; intros seg.
  - simpl. f_equal. induction seg; simpl; [reflexivity | now f_equal].
  - change (String.concat "/" (seg :: seg' :: segs))
      with (seg ++ "/" ++ String.concat "/" (seg' :: segs)).
    rewrite IH. reflexivity.
Qed.

Lemma nonEmpty_append (a b : string) :
  nonEmpty a = true -> nonEmpty (a ++ b) = true.
Proof. destruct a; [discriminate | reflexivity]. Qed.

Lemma nonEmpty_concat (seg : string) (segs : list string) :
  nonEmpty seg = true -> nonEmpty (String.concat "/" (seg :: segs)) = true.
Proof.
  intros H. destruct segs; simpl; [exact H | now apply nonEmpty_append].
Qed.

Lemma pathParts_nonEmpty (u : URL) (seg : string) :
  In seg (pathParts u) -> nonEmpty seg = true.
Proof. unfold pathParts. intros H. now apply filter_In in H. Qed.

Lemma length_snoc_pos {A} (l : list A) (x : A) :
  (List.length (l ++ [x])%list =? 0)%nat = false.
Proof. rewrite length_app, Nat.add_comm. reflexivity. Qed.

(** C6. An id that starts with neither scheme parses to null; for an id
    that starts with one and that [new URL] accepts, an empty list of
    path segments gives null, and otherwise the last segment is the model
    name and protocol, host and the segments before it are the base
    URL. *)
Theorem parseUrlModel_segments (modelId : string) :
  (startsWith modelId "http://" = false ->
   startsWith modelId "https://" = false ->
   parseUrlModel URL_new modelId = None)
  /\ (forall url,
         startsWith modelId "http://" = true
         \/ startsWith modelId "https://" = true ->
         URL_new modelId = Some url ->
         (pathParts url = [] -> parseUrlModel URL_new modelId = None)
         /\ (forall leading model,
                pathParts url = (leading ++ [model])%list ->
                parseUrlModel URL_new modelId
                = Some {| parsedBaseUrl :=
                            protocol url ++ "//" ++ host url ++ slashed leading;
                          parsedModelName := model |})).
Proof.
  split.
  - intros H1 H2. unfold parseUrlModel. now rewrite H1, H2.
  - intros url Hscheme Hurl.
    assert (Hgate : negb (startsWith modelId "http://")
                    && negb (startsWith modelId "https://") = false).
    { destruct Hscheme as [-> | ->]; simpl; [reflexivity | apply andb_false_r]. }
    split.
    + intros Hparts. unfold parseUrlModel. now rewrite Hgate, Hurl, Hparts.
    + intros leading model Hparts. unfold parseUrlModel.
      rewrite Hgate, Hurl, Hparts, length_snoc_pos.
      rewrite last_last, removelast_last.
      destruct leading as [|seg segs].
      * reflexivity.
      * replace (1 <? List.length ((seg :: segs) ++ [model])%list)%nat with true
          by (symmetry; apply Nat.ltb_lt; rewrite length_app; simpl; lia).
        rewrite nonEmpty_concat.
        -- now rewrite concat_slashed.
        -- apply (pathParts_nonEmpty url). rewrite Hparts. now left.
Qed.

End UrlModels.

Lemma parseUrlModel_segments_witness :
  parseUrlModel Samples.sampleURL "ollama/llama3" = None
  /\ parseUrlModel Samples.sampleURL "https://example.com" = None
  /\ parseUrlModel Samples.sampleURL "http://localhost:11434/v1/llama3"
     = Some {| parsedBaseUrl := "http://localhost:11434/v1";
               parsedModelName := "llama3" |}.
Proof.
  split; [|split].
  - apply (proj1 (parseUrlModel_segments Samples.sampleURL "ollama/llama3"));
      reflexivity.
  - apply (proj2 (parseUrlModel_segments Samples.sampleURL "https://example.com")
             {| protocol := "https:"; host := "example.com"; pathname := "/" |});
      [right; reflexivity | reflexivity | reflexivity].
  - apply (proj2 (parseUrlModel_segments Samples.sampleURL
                    "http://localhost:11434/v1/llama3")
             {| protocol := "http:"; host := "localhost:11434";
                pathname := "/v1/llama3" |}
             (or_introl eq_refl) eq_refl) with (leading := ["v1"]).
    reflexivity.
Defined.

End RegistryFacts.

(* ===================================================================== *)
(** * Properties of the port finder *)
(* ===================================================================== *)

Module PortsFacts.
Import Ports.

Section Range.

Variable random : Q.
Variable isPortAvailable : nat -> Z -> bool.

(** The sequential search answers with one of the ports it walks over. *)
Lemma searchFrom_range (rounds probe : nat) (port p : Z) :
  searchFrom isPortAvailable rounds probe port = Some p ->
  (port <= p < port + Z.of_nat rounds)%Z.
Proof.
  revert probe port.
  induction rounds as [|rounds IH]; intros probe port H; simpl in H.
  - discriminate.
  - destruct (isPortAvailable probe port).
    + injection H as <-. lia.
    + apply IH in H. lia.
Qed.

(** [Math.floor(Math.random() * n)] is one of [0, ..., n - 1]. *)
Lemma random_index (n : Z) :
  0 <= random -> random < 1 -> (0 < n)%Z ->
  (0 <= Qfloor (random * inject_Z n) < n)%Z.
Proof.
  intros H0 H1 Hn.
  assert (Hn' : 0 < inject_Z n) by (unfold Qlt; simpl; lia).
  split.
  - change 0%Z with (Qfloor 0). apply Qfloor_resp_le.
    apply Qmult_le_0_compat; [exact H0 | now apply Qlt_le_weak].
  - rewrite Zlt_Qlt.
    apply Qle_lt_trans with (random * inject_Z n); [apply Qfloor_le|].
    setoid_replace (inject_Z n) with (1 * inject_Z n) at 2 by ring.
    now apply Qmult_lt_compat_r.
Qed.

(** C10. With [startPort <= endPort], a port that [findAvailablePort]
    returns lies between the two; with the default arguments it lies
    between 3000 and 9000. *)
Theorem findAvailablePort_in_range (startPort endPort p : Z) :
  0 <= random -> random < 1 ->
  (startPort <= endPort)%Z ->
  findAvailablePort random isPortAvailable (Some startPort) (Some endPort)
  = Some p ->
  (startPort <= p <= endPort)%Z
  /\ (forall q,
         findAvailablePort random isPortAvailable None None = Some q ->
         (3000 <= q <= 9000)%Z).
Proof.
  intros H0 H1 Hle H.
  assert (range : forall s e r,
             (s <= e)%Z -> findAvailablePortIn random isPortAvailable s e = Some r ->
             (s <= r <= e)%Z).
  { intros s e r Hse Hr. unfold findAvailablePortIn in Hr.
    pose proof (random_index (e - s + 1) H0 H1 ltac:(lia)) as Hidx.
    destruct (isPortAvailable 0 _).
    - assert (E : (Qfloor (random * inject_Z (e - s + 1)) + s)%Z = r)
        by congruence.
      rewrite <- E. lia.
    - apply searchFrom_range in Hr. lia. }
  split.
  - now apply range.
  - intros q Hq. apply range in Hq; [exact Hq | lia].
Qed.

End Range.

Lemma findAvailablePort_in_range_witness :
  (4000 <= 4007 <= 4010)%Z
  /\ (forall q,
         findAvailablePort (1 # 2) (fun _ p => (p =? 4007)%Z) None None = Some q ->
         (3000 <= q <= 9000)%Z).
Proof.
  apply (findAvailablePort_in_range (1 # 2) (fun _ p => (p =? 4007)%Z) 4000 4010 4007).
  - discriminate.
  - reflexivity.
  - lia.
  - reflexivity.
Defined.

End PortsFacts.

(* ===================================================================== *)
(** * Properties of the local provider handler *)
(* ===================================================================== *)

Module HandlerFacts.
Import JSString JSStringFacts JS Registry Handler.

Lemma lookup_assign_other (k k' : string) (v : JSValue)
  (props : list (string * JSValue)) :
  k' <> k -> lookup k' (assign k v props) = lookup k' props.
Proof.
  intros N. induction props as [|[k0 v0] props IH]; simpl.
  - destruct (String.eqb_spec k' k); [contradiction | reflexivity].
  - destruct (String.eqb_spec k k0) as [<-|_]; simpl.
    + destruct (String.eqb_spec k' k); [contradiction | reflexivity].
    + now rewrite IH.
Qed.

Lemma getProp_setProp_other (o : JSValue) (k k' : string) (v : JSValue) :
  k' <> k -> getProp (setProp o k v) k' = getProp o k'.
Proof.
  intros N. destruct o; try reflexivity. now apply lookup_assign_other.
Qed.

Lemma run_bind {S A B} (c : state S A) (f : A -> state S B) (s : S) :
  runState (bind c f) s
  = runState (f (fst (runState c s))) (snd (runState c s)).
Proof. cbn. now destruct (runState c s). Qed.

Lemma run_ret {S A} (a : A) (s : S) : runState (ret a : state S A) s = (a, s).
Proof. reflexivity. Qed.

Section Effects.

Variable provider : LocalProvider.
Variable modelName : string.
Variable port : Z.
Variable tmpdir : string.
Variable backend : list HttpRequest -> HttpRequest -> FetchResult.
Variable JSON_parse : string -> option JSValue.
Variable parseInt10 : JSValue -> Number.
Variable transformOpenAIToClaude : JSValue -> JSValue * list string.
Variable convertMessagesToOpenAI : JSValue -> string -> list JSValue.
Variable convertToolsToOpenAI : JSValue -> list JSValue.
Variable prepareRequest : JSValue -> JSValue -> JSValue.

Local Abbreviation checkHealth := (checkHealth provider backend).
Local Abbreviation fetchContextWindow :=
  (fetchContextWindow provider modelName backend JSON_parse parseInt10).
Local Abbreviation healthGate :=
  (healthGate provider modelName backend JSON_parse parseInt10).
Local Abbreviation outboundPayload :=
  (outboundPayload provider modelName transformOpenAIToClaude
     convertMessagesToOpenAI convertToolsToOpenAI prepareRequest).
Local Abbreviation chatRequest :=
  (chatRequest provider modelName transformOpenAIToClaude
     convertMessagesToOpenAI convertToolsToOpenAI prepareRequest).
Local Abbreviation reply :=
  (reply provider modelName JSON_parse transformOpenAIToClaude
     convertMessagesToOpenAI convertToolsToOpenAI prepareRequest).
Local Abbreviation handle :=
  (handle provider modelName backend JSON_parse parseInt10
     transformOpenAIToClaude convertMessagesToOpenAI convertToolsToOpenAI
     prepareRequest).
Local Abbreviation writeTokenFile := (writeTokenFile port tmpdir).
Local Abbreviation calls :=
  (calls provider modelName port tmpdir backend JSON_parse parseInt10
     transformOpenAIToClaude convertMessagesToOpenAI convertToolsToOpenAI
     prepareRequest).
Local Abbreviation untouched := (untouched provider).
Local Abbreviation tagsProbe := (GET (baseUrl provider ++ "/api/tags")).
Local Abbreviation modelsProbe := (GET (baseUrl provider ++ "/v1/models")).
Local Abbreviation showRequest :=
  (POST (baseUrl provider ++ "/api/show") (Obj [("name", Str modelName)])).

(** What [checkHealth] does when the health has not been checked: it sends
    one or two probes, in this order, and records the result. *)
Lemma checkHealth_first (w : World) :
  healthChecked (this w) = false ->
  exists probes healthy,
    (probes = [tagsProbe] \/ probes = [tagsProbe; modelsProbe])
    /\ runState checkHealth w
       = (healthy,
          {| this := {| healthChecked := true; isHealthy := healthy;
                        contextWindow := contextWindow (this w);
                        sessionInputTokens := sessionInputTokens (this w);
                        sessionOutputTokens := sessionOutputTokens (this w) |};
             sent := (sent w ++ probes)%list;
             written := written w |}).
Proof.
  intros H. unfold Handler.checkHealth. cbn. rewrite H. cbn.
  destruct (backend (sent w) tagsProbe) as [e|r] eqn:E1; cbn.
  - destruct (backend _ modelsProbe) as [e2|r2] eqn:E2; cbn.
    + exists [tagsProbe; modelsProbe], false. split; [now right|].
      now rewrite <- app_assoc.
    + destruct (ok r2); cbn;
        [exists [tagsProbe; modelsProbe], true
        |exists [tagsProbe; modelsProbe], false];
        (split; [now right | now rewrite <- app_assoc]).
  - destruct (ok r); cbn;
      [exists [tagsProbe], true | exists [tagsProbe], false];
      (split; [now left | reflexivity]).
Qed.

(** [fetchContextWindow] sends at most the show request and touches the
    context window only. *)
Lemma fetchContextWindow_effect (w : World) :
  exists shows n,
    (shows = [] \/ shows = [showRequest])
    /\ execState fetchContextWindow w
       = {| this := {| healthChecked := healthChecked (this w);
                       isHealthy := isHealthy (this w);
                       contextWindow := n;
                       sessionInputTokens := sessionInputTokens (this w);
                       sessionOutputTokens := sessionOutputTokens (this w) |};
            sent := (sent w ++ shows)%list;
            written := written w |}
    /\ (name provider <> "ollama" -> shows = [] /\ n = contextWindow (this w)).
Proof.
  destruct w as [[hc ih cw si so] snt wr].
  unfold Handler.fetchContextWindow, execState.
  destruct (String.eqb_spec (name provider) "ollama") as [E|E]; cbn.
  - destruct (backend snt showRequest) as [e|r]; cbn;
      [|destruct (ok r); cbn;
        [destruct (JSON_parse (text r)) as [parsed|]; cbn;
         [destruct (contextFromShow parseInt10 parsed) as [n|]; cbn|]|]].
    1: exists [showRequest], cw.
    2: exists [showRequest], n.
    3-5: exists [showRequest], cw.
    all: split; [auto | split; [reflexivity | intros N; now elim N]].
  - exists [], cw. rewrite app_nil_r. repeat split; auto.
Qed.

(** Once the health has been checked, the gate lets every request pass and
    does nothing. *)
Lemma healthGate_checked (w : World) :
  healthChecked (this w) = true -> runState healthGate w = (true, w).
Proof. intros H. unfold Handler.healthGate. cbn. now rewrite H. Qed.

Lemma healthGate_first (w : World) :
  healthChecked (this w) = false ->
  runState healthGate w
  = if fst (runState checkHealth w)
    then (true, execState fetchContextWindow (snd (runState checkHealth w)))
    else (false, snd (runState checkHealth w)).
Proof.
  intros H. unfold Handler.healthGate.
  rewrite run_bind. cbn [runState get MonadState_state fst snd]. rewrite H.
  cbn [negb]. rewrite run_bind.
  destruct (fst (runState checkHealth w)); cbn [negb].
  - rewrite run_bind, run_ret. unfold execState.
    now destruct (runState fetchContextWindow _) as [[] w2].
  - now rewrite run_ret.
Qed.

Lemma handle_run (payload : JSValue) (w : World) :
  runState (handle payload) w
  = if fst (runState healthGate w)
    then (reply payload
            (backend (sent (snd (runState healthGate w))) (chatRequest payload)),
          {| this := this (snd (runState healthGate w));
             sent := (sent (snd (runState healthGate w))
                      ++ [chatRequest payload])%list;
             written := written (snd (runState healthGate w)) |})
    else (errorResponse "connection_error"
            (Str (getConnectionErrorMessage provider)) 503,
          snd (runState healthGate w)).
Proof.
  unfold Handler.handle. rewrite run_bind.
  destruct (fst (runState healthGate w)); cbn [negb].
  - rewrite run_bind. reflexivity.
  - now rewrite run_ret.
Qed.

Lemma healthGate_untouched (w : World) :
  untouched w (snd (runState healthGate w)).
Proof.
  destruct (healthChecked (this w)) eqn:H.
  - rewrite (healthGate_checked w H). cbn. repeat split; auto.
  - rewrite (healthGate_first w H).
    destruct (checkHealth_first w H) as (probes & healthy & _ & ->).
    cbn [fst snd]. destruct healthy; cbn [fst snd].
    + match goal with |- untouched _ (execState _ ?w1) =>
        destruct (fetchContextWindow_effect w1) as (shows & n & _ & -> & K)
      end.
      cbn. repeat split; auto. intros N. now destruct (K N) as [_ ->].
    + cbn. repeat split; auto.
Qed.

Lemma handle_untouched (payload : JSValue) (w : World) :
  untouched w (execState (handle payload) w).
Proof.
  unfold execState. rewrite handle_run.
  pose proof (healthGate_untouched w) as U.
  now destruct (fst (runState healthGate w)).
Qed.

(** After any request the health has been checked. *)
Lemma handle_checked (payload : JSValue) (w : World) :
  healthChecked (this (execState (handle payload) w)) = true.
Proof.
  unfold execState. rewrite handle_run.
  assert (G : healthChecked (this (snd (runState healthGate w))) = true).
  { destruct (healthChecked (this w)) eqn:H.
    - now rewrite (healthGate_checked w H).
    - rewrite (healthGate_first w H).
      destruct (checkHealth_first w H) as (probes & healthy & _ & ->).
      cbn [fst snd]. destruct healthy; cbn [fst snd]; [|reflexivity].
      match goal with |- context [execState _ ?w1] =>
        destruct (fetchContextWindow_effect w1) as (shows & n & _ & -> & _)
      end.
      reflexivity. }
  now destruct (fst (runState healthGate w)).
Qed.


(** For a provider other than ollama no call changes the context
    window. *)
Lemma calls_contextWindow (cs : list Call) (w : World) :
  name provider <> "ollama" ->
  contextWindow (this (execState (calls cs) w)) = contextWindow (this w).
Proof.
  intros N. revert w. induction cs as [|c cs IH]; intros w.
  - reflexivity.
  - unfold execState in *. cbn [Handler.calls]. rewrite run_bind, IH.
    destruct c as [payload | now input output]; cbn [Handler.call].
    + rewrite run_bind, run_ret. cbn [snd].
      destruct (handle_untouched payload w) as (_ & _ & _ & C).
      now apply C.
    + reflexivity.
Qed.



Lemma matchNumCtx_nonEmpty (s digits : string) :
  matchNumCtx s = Some digits -> nonEmpty digits = true.
Proof.
  induction s as [|c s IH]; cbn [matchNumCtx]; unfold matchNumCtxHere.
  - cbn. discriminate.
  - destruct (startsWith (String c s) "num_ctx"); [|exact IH].
    destruct (nonEmpty (takeWhile isSpace _)); cbn [andb]; [|exact IH].
    destruct (nonEmpty (takeWhile isDigit _)) eqn:D; [|exact IH].
    intros E. injection E as <-. exact D.
Qed.

(** C7. For a provider other than ollama the context window stays 8192
    whatever the handler serves. For ollama, starting from 8192, the show
    request decides: an answer that is not OK or not JSON leaves 8192; from
    an answer whose [parameters] are a string or missing, the window is
    [parseInt] of [model_info["general.context_length"]] when that is set,
    else of the digits the [num_ctx] pattern finds in the parameters, else
    8192. *)
Theorem context_window_discovery :
  (name provider <> "ollama" ->
   forall cs, contextWindow (this (execState (calls cs) newWorld)) = Fin 8192)
  /\ (name provider = "ollama" ->
      forall w, contextWindow (this w) = Fin 8192 ->
      let after := contextWindow (this (execState fetchContextWindow w)) in
      (forall error, backend (sent w) showRequest = Rejected error ->
                     after = Fin 8192)
      /\ (forall r, backend (sent w) showRequest = Responded r ->
            (ok r = false -> after = Fin 8192)
            /\ (ok r = true -> JSON_parse (text r) = None -> after = Fin 8192)
            /\ (forall shown numCtx,
                   ok r = true -> JSON_parse (text r) = Some shown ->
                   nullish shown = false ->
                   (nullish (getProp shown "parameters") = true /\ numCtx = None
                    \/ exists s, getProp shown "parameters" = Str s
                                 /\ numCtx = matchNumCtx s) ->
                   let info :=
                     getProp (getProp shown "model_info") "general.context_length" in
                   after
                   = if truthy info then parseInt10 info
                     else match numCtx with
                          | Some digits => parseInt10 (Str digits)
                          | None => Fin 8192
                          end))).
Proof.
  split.
  - intros N cs. now rewrite calls_contextWindow.
  - intros E w W after. subst after.
    unfold execState, Handler.fetchContextWindow. rewrite E. cbn.
    split.
    + intros error ->. exact W.
    + intros r ->. split; [|split].
      * intros ->. exact W.
      * intros -> ->. exact W.
      * intros shown numCtx -> -> Hn P. cbn.
        set (info := getProp (getProp shown "model_info") "general.context_length").
        unfold contextFromShow. rewrite Hn.
        assert (I : (if nullish (getProp shown "model_info") then Undefined
                     else getProp (getProp shown "model_info")
                            "general.context_length") = info).
        { subst info. now destruct (getProp shown "model_info"). }
        rewrite I. clear I.
        destruct P as [[-> ->] | (s & -> & ->)]; cbn.
        -- now destruct (truthy info).
        -- destruct (matchNumCtx s) as [digits|] eqn:D; cbn.
           ++ rewrite (matchNumCtx_nonEmpty s digits D).
              now destruct (truthy info).
           ++ now destruct (truthy info).
Qed.

(** ** Error replies *)


(** When the reply of the [try] block of [handleErrorResponse] cannot be
    built, the one of its [catch] cannot either, for the same reason. *)
Lemma returned_errorResponse (type : string) (message fallback : JSValue)
  (status : Z) :
  match returned (errorResponse type message status) with
  | Some reply => reply
  | None => errorResponse type fallback status
  end
  = errorResponse type message status.
Proof.
  unfold errorResponse, c_json.
  destruct (negb _); [reflexivity|].
  now destruct (nullBodyStatus status).
Qed.

Lemma handleErrorResponse_cases (status : Z) (errorBody : string) :
  handleErrorResponse provider modelName JSON_parse status errorBody
  = match errorMessage JSON_parse errorBody with
    | Some msg =>
        if modelNotFoundText msg then
          errorResponse "model_not_found"
            (Str ("Model '" ++ modelName ++ "' not found. "
                    ++ getModelPullHint provider modelName)) 503
        else if toolsUnsupportedText msg then
          errorResponse "capability_error" (Str (capabilityMessage modelName)) 400
        else errorResponse "api_error" msg status
    | None => errorResponse "api_error" (Str errorBody) status
    end.
Proof.
  unfold handleErrorResponse, handleErrorResponseTry, errorMessage.
  destruct (JSON_parse errorBody) as [parsed|]; [|reflexivity].
  destruct (errorMsgOf parsed errorBody) as [msg|]; [|reflexivity].
  destruct (includesOf msg) as [inc|] eqn:I; [|reflexivity].
  unfold modelNotFoundText, toolsUnsupportedText, mentions. rewrite I.
  destruct (inc "model" && (inc "not found" || inc "does not exist"));
    [reflexivity|].
  destruct (inc "does not support tools" || inc "tool" && inc "not supported");
    [reflexivity|].
  apply returned_errorResponse.
Qed.

(** The reply to a request that passed the gate. *)
Lemma handle_forwarded (payload : JSValue) (w : World) :
  fst (runState healthGate w) = true ->
  evalState (handle payload) w
  = reply payload
      (backend (sent (snd (runState healthGate w))) (chatRequest payload)).
Proof. intros G. unfold evalState. now rewrite handle_run, G. Qed.


(** ** What the gate and a request send *)

Lemma healthGate_requests (w : World) :
  (healthChecked (this w) = true /\ runState healthGate w = (true, w))
  \/ (healthChecked (this w) = false
      /\ exists probes,
           (probes = [tagsProbe] \/ probes = [tagsProbe; modelsProbe])
           /\ ((fst (runState healthGate w) = false
                /\ fst (runState checkHealth w) = false
                /\ sent (snd (runState healthGate w)) = (sent w ++ probes)%list)
               \/ (fst (runState healthGate w) = true
                   /\ fst (runState checkHealth w) = true
                   /\ exists shows,
                        (shows = [] \/ shows = [showRequest])
                        /\ sent (snd (runState healthGate w))
                           = (sent w ++ probes ++ shows)%list))).
Proof.
  destruct (healthChecked (this w)) eqn:H.
  - left. split; [reflexivity | now apply healthGate_checked].
  - right. split; [reflexivity|].
    rewrite (healthGate_first w H).
    destruct (checkHealth_first w H) as (probes & healthy & P & ->).
    exists probes. split; [exact P|]. cbn [fst snd].
    destruct healthy; cbn [fst snd]; [right | left; auto].
    split; [reflexivity|]. split; [reflexivity|].
    match goal with |- context [execState _ ?w1] =>
      destruct (fetchContextWindow_effect w1) as (shows & n & S & -> & _)
    end.
    exists shows. split; [exact S|]. cbn. now rewrite app_assoc.
Qed.

(** A request served after the health check sends the chat request and
    nothing else. *)
Lemma handle_checked_sends (payload : JSValue) (w : World) :
  healthChecked (this w) = true ->
  sent (execState (handle payload) w) = (sent w ++ [chatRequest payload])%list.
Proof.
  intros H. unfold execState. rewrite handle_run.
  now rewrite (healthGate_checked w H).
Qed.

(** ** The payload *)

(** Without tools to offer, the payload is the object literal. *)
Lemma withToolChoice_no_tools (claudeRequest openAIPayload : JSValue) :
  withToolChoice claudeRequest [] openAIPayload = openAIPayload.
Proof. unfold withToolChoice. now rewrite andb_false_r. Qed.

(** Setting the tool choice leaves the fields of the literal as they
    are. *)
Lemma withToolChoice_other (claudeRequest : JSValue)
  (messages finalTools : list JSValue) (k : string) :
  k <> "tool_choice" ->
  getProp (withToolChoice claudeRequest finalTools
             (buildPayload provider modelName claudeRequest messages finalTools)) k
  = getProp (buildPayload provider modelName claudeRequest messages finalTools) k.
Proof.
  intros N. unfold withToolChoice.
  assert (A : forall v o, getProp (setProp o "tool_choice" v) k = getProp o k).
  { intros v o. now apply getProp_setProp_other. }
  repeat match goal with
         | |- context [if ?c then _ else _] => destruct c
         end; now rewrite ?A.
Qed.

(** C5, as the code has it. With an adapter that leaves the three
    fields alone, the payload sent has the [max_tokens] of the request,
    its [temperature] or 1 when that is missing or null, and for [stream]
    the streaming capability of the provider (not what the caller
    asked for). *)
Theorem parameter_policy (payload : JSValue) :
  (forall p r k, In k ["max_tokens"; "temperature"; "stream"] ->
                 getProp (prepareRequest p r) k = getProp p k) ->
  let claudeRequest := fst (transformOpenAIToClaude payload) in
  let sentPayload := outboundPayload payload in
  body (chatRequest payload) = Some sentPayload
  /\ getProp sentPayload "max_tokens" = getProp claudeRequest "max_tokens"
  /\ getProp sentPayload "temperature"
     = (if nullish (getProp claudeRequest "temperature") then num 1
        else getProp claudeRequest "temperature")
  /\ getProp sentPayload "stream"
     = Bool (supportsStreaming (capabilities provider)).
Proof.
  intros A claudeRequest sentPayload. subst sentPayload.
  unfold Handler.outboundPayload. fold claudeRequest.
  split; [reflexivity|].
  repeat split.
  all: rewrite A by (simpl; auto 6).
  all: rewrite withToolChoice_other by discriminate.
  all: reflexivity.
Qed.

(** C8, as the code has it. With an adapter that leaves [tool_choice]
    alone: when tools are sent and the request has a tool choice, a choice
    of type tool with a name becomes [{type: "function", function:
    {name}}] and a choice object of type auto or none becomes that word as
    a string; when no tools are sent, the payload has no [tool_choice]. *)
Theorem tool_choice_policy (payload : JSValue) :
  (forall p r, getProp (prepareRequest p r) "tool_choice"
               = getProp p "tool_choice") ->
  let claudeRequest := fst (transformOpenAIToClaude payload) in
  let tool_choice := getProp claudeRequest "tool_choice" in
  let finalTools := finalToolsOf provider (convertToolsToOpenAI claudeRequest) in
  let sentPayload := outboundPayload payload in
  (finalTools <> [] -> truthy tool_choice = true ->
   (isStr (getProp tool_choice "type") "tool" = true ->
    truthy (getProp tool_choice "name") = true ->
    getProp sentPayload "tool_choice"
    = Obj [("type", Str "function");
           ("function", Obj [("name", getProp tool_choice "name")])])
   /\ (forall word,
          word = "auto" \/ word = "none" ->
          getProp tool_choice "type" = Str word ->
          getProp sentPayload "tool_choice" = Str word))
  /\ (finalTools = [] -> hasField sentPayload "tool_choice" = false).
Proof.
  intros A claudeRequest tool_choice finalTools sentPayload. subst sentPayload.
  unfold Handler.outboundPayload. fold claudeRequest. fold finalTools.
  unfold hasField. rewrite A. split.
  - intros N T. unfold withToolChoice. fold tool_choice. rewrite T.
    replace (0 <? List.length finalTools)%nat with true
      by (destruct finalTools; [contradiction | reflexivity]).
    cbn [andb]. split.
    + intros -> ->. reflexivity.
    + intros word [-> | ->] ->; reflexivity.
  - intros ->. now rewrite withToolChoice_no_tools.
Qed.

(** C1, as the code has it. For a provider without tool support and an
    adapter that adds no tools, no request the handler sends has a
    [tools] field, whatever tools the client declared; and an answer that
    is not 2xx whose error message says that tools are not supported, and
    is not model-not-found text, is replied to with a capability_error. *)
Theorem tools_gated (payload : JSValue) (w : World) :
  supportsTools (capabilities provider) = false ->
  (forall p r, getProp p "tools" = Undefined ->
               getProp (prepareRequest p r) "tools" = Undefined) ->
  hasField (outboundPayload payload) "tools" = false
  /\ (exists new,
         sent (execState (handle payload) w) = (sent w ++ new)%list
         /\ Forall (fun rq => forall b, body rq = Some b ->
                                        hasField b "tools" = false) new)
  /\ (forall r msg,
         fst (runState healthGate w) = true ->
         backend (sent (snd (runState healthGate w))) (chatRequest payload)
         = Responded r ->
         ok r = false ->
         errorMessage JSON_parse (text r) = Some msg ->
         toolsUnsupportedText msg = true ->
         modelNotFoundText msg = false ->
         evalState (handle payload) w
         = Json 400 []
             (Obj [("error", Obj [("type", Str "capability_error");
                                  ("message", Str (capabilityMessage modelName))])])).
Proof.
  intros T A.
  assert (P : hasField (outboundPayload payload) "tools" = false).
  { unfold hasField, Handler.outboundPayload. rewrite A; [reflexivity|].
    unfold finalToolsOf. rewrite T. now rewrite withToolChoice_no_tools. }
  split; [exact P|]. split.
  - assert (C : forall b, body (chatRequest payload) = Some b ->
                          hasField b "tools" = false).
    { intros b E. injection E as <-. exact P. }
    assert (Q : forall rq, rq = tagsProbe \/ rq = modelsProbe \/ rq = showRequest ->
                           forall b, body rq = Some b -> hasField b "tools" = false).
    { intros rq [-> | [-> | ->]] b E; try discriminate.
      injection E as <-. reflexivity. }
    assert (S : sent (execState (handle payload) w)
                = sent (snd (runState (handle payload) w))) by reflexivity.
    rewrite handle_run in S. rewrite S. clear S.
    destruct (healthGate_requests w)
      as [[_ G] | (_ & probes & Pr & [(G & _ & E) | (G & _ & shows & Sh & E)])].
    + rewrite G. cbn [fst snd sent].
      exists [chatRequest payload]. split; [reflexivity|]. now constructor.
    + rewrite G. cbn [fst snd sent]. rewrite E.
      exists probes. split; [reflexivity|].
      destruct Pr as [-> | ->]; repeat constructor; apply Q; auto.
    + rewrite G. cbn [fst snd sent]. rewrite E.
      exists (probes ++ shows ++ [chatRequest payload])%list.
      split; [now rewrite <- !app_assoc|].
      destruct Pr as [-> | ->], Sh as [-> | ->]; cbn;
        repeat constructor; try exact C; apply Q; auto.
  - intros r msg G E K M U N.
    rewrite (handle_forwarded payload w G), E. unfold Handler.reply.
    rewrite K. cbn [negb]. rewrite handleErrorResponse_cases, M, N, U.
    reflexivity.
Qed.

(** The connection error names the provider and its base URL and, for
    ollama, the command that starts it. *)
Lemma connection_message_names :
  includes (getConnectionErrorMessage provider) (providerLabel provider) = true
  /\ includes (getConnectionErrorMessage provider) (baseUrl provider) = true
  /\ (name provider = "ollama" ->
      namesStartCommand (getConnectionErrorMessage provider)
      /\ includes (getConnectionErrorMessage provider) "ollama serve" = true).
Proof.
  unfold getConnectionErrorMessage, providerLabel.
  split; [|split].
  - destruct (String.eqb (name provider) "ollama");
      [|destruct (String.eqb (name provider) "lmstudio");
        [|destruct (String.eqb (name provider) "vllm")]].
    + exact (includes_app "Cannot connect to " "Ollama" _).
    + exact (includes_app "Cannot connect to " "LM Studio" _).
    + exact (includes_app "Cannot connect to " "vLLM" _).
    + exact (includes_app "Cannot connect to " (name provider) _).
  - destruct (String.eqb (name provider) "ollama");
      [|destruct (String.eqb (name provider) "lmstudio");
        [|destruct (String.eqb (name provider) "vllm")]].
    1-3: apply includes_app.
    rewrite <- (append_assoc (name provider) " at " _).
    rewrite <- (append_assoc "Cannot connect to " _ _).
    apply includes_app.
  - intros ->. cbn [String.eqb Ascii.eqb Bool.eqb].
    set (before := "Cannot connect to Ollama at " ++ baseUrl provider
                     ++ ". Make sure Ollama is running").
    assert (E : "Cannot connect to Ollama at " ++ baseUrl provider
                  ++ ". Make sure Ollama is running with: ollama serve"
                = before ++ " with: " ++ "ollama serve").
    { subst before. now rewrite !append_assoc. }
    split.
    + exists before, "ollama serve". split; [discriminate | exact E].
    + rewrite E. rewrite <- (append_assoc before " with: " _).
      exact (includes_app _ "ollama serve" "").
Qed.

(** C4, as the code has it. The first request probes
    [<base_url>/api/tags] and then at most [<base_url>/v1/models], in
    this order for every provider. If the health check fails, the reply is
    a connection_error whose message names the provider and its base URL
    (and, for ollama, the start command), and only the probes were sent.
    Afterwards the health counts as checked, and a later request sends its
    chat request and no probe. *)
Theorem health_gate (payload : JSValue) (w : World) :
  healthChecked (this w) = false ->
  let message := getConnectionErrorMessage provider in
  let w' := execState (handle payload) w in
  (exists probes rest,
      sent w' = (sent w ++ probes ++ rest)%list
      /\ (probes = [tagsProbe] \/ probes = [tagsProbe; modelsProbe])
      /\ Forall (fun rq => method rq = "POST") rest)
  /\ (evalState checkHealth w = false ->
      evalState (handle payload) w
      = Json 503 []
          (Obj [("error", Obj [("type", Str "connection_error");
                               ("message", Str message)])])
      /\ (sent w' = (sent w ++ [tagsProbe])%list
          \/ sent w' = (sent w ++ [tagsProbe; modelsProbe])%list))
  /\ (includes message (providerLabel provider) = true
      /\ includes message (baseUrl provider) = true
      /\ (name provider = "ollama" ->
          namesStartCommand message /\ includes message "ollama serve" = true))
  /\ healthChecked (this w') = true
  /\ (forall next,
         sent (execState (handle next) w') = (sent w' ++ [chatRequest next])%list).
Proof.
  intros H message w'.
  assert (S : sent w' = sent (snd (runState (handle payload) w))) by reflexivity.
  assert (O : evalState (handle payload) w = fst (runState (handle payload) w))
    by reflexivity.
  rewrite handle_run in S, O.
  destruct (healthGate_requests w)
    as [[K _] | (_ & probes & Pr & [(G & C & E) | (G & C & shows & Sh & E)])];
    [congruence | |]; rewrite G in S, O; cbn [fst snd sent] in S, O;
    rewrite E in S.
  - split; [|split; [|split; [|split]]].
    + exists probes, []. rewrite app_nil_r. auto.
    + intros _. split; [exact O|]. rewrite S. now destruct Pr as [-> | ->]; auto.
    + exact connection_message_names.
    + apply handle_checked.
    + intros next. apply handle_checked_sends, handle_checked.
  - split; [|split; [|split; [|split]]].
    + exists probes, (shows ++ [chatRequest payload])%list.
      split; [now rewrite S, <- !app_assoc|]. split; [exact Pr|].
      destruct Sh as [-> | ->]; repeat constructor.
    + unfold evalState. rewrite C. discriminate.
    + exact connection_message_names.
    + apply handle_checked.
    + intros next. apply handle_checked_sends, handle_checked.
Qed.

(** ** More about the health check *)

(** X7. An unchecked handler is healthy exactly when [/api/tags] is
    answered OK, or [/api/tags] throws and [/v1/models] is answered OK.
    When [/api/tags] is answered, whatever the status, [/v1/models] is not
    asked. *)
Theorem checkHealth_decides (w : World) :
  healthChecked (this w) = false ->
  (evalState checkHealth w = true
   <-> ((exists r, backend (sent w) tagsProbe = Responded r /\ ok r = true)
        \/ (exists error r,
               backend (sent w) tagsProbe = Rejected error
               /\ backend (sent w ++ [tagsProbe])%list modelsProbe = Responded r
               /\ ok r = true)))
  /\ (forall r,
         backend (sent w) tagsProbe = Responded r ->
         sent (execState checkHealth w) = (sent w ++ [tagsProbe])%list).
Proof.
  intros H. unfold evalState, execState, Handler.checkHealth. cbn. rewrite H. cbn.
  destruct (backend (sent w) tagsProbe) as [e|r] eqn:E1; cbn.
  - split; [|discriminate].
    destruct (backend _ modelsProbe) as [e2|r2] eqn:E2; cbn.
    + split; [discriminate|].
      intros [(r & R & _) | (e' & r & _ & R & _)]; discriminate.
    + destruct (ok r2) eqn:K; cbn.
      * split; [|reflexivity]. intros _. right. now exists e, r2.
      * split; [discriminate|].
        intros [(r & R & _) | (e' & r & _ & R & K')]; [discriminate|].
        injection R as <-. congruence.
  - split; [|now destruct (ok r)].
    destruct (ok r) eqn:K; cbn.
    + split; [|reflexivity]. intros _. left. now exists r.
    + split; [discriminate|].
      intros [(r' & R & K') | (e' & r' & R & _)]; [|discriminate].
      injection R as <-. congruence.
Qed.

(** X8. The health check is made once: a second [checkHealth] returns
    what the first returned and changes nothing, so it sends no
    request. *)
Theorem checkHealth_memoized (w : World) :
  runState checkHealth (execState checkHealth w)
  = (evalState checkHealth w, execState checkHealth w).
Proof.
  destruct (healthChecked (this w)) eqn:H.
  - unfold evalState, execState, Handler.checkHealth. cbn. rewrite H. cbn.
    now rewrite H.
  - unfold evalState, execState.
    destruct (checkHealth_first w H) as (probes & healthy & _ & ->).
    reflexivity.
Qed.

(** Once the health is checked, no call changes the health flags or the
    context window. *)
Lemma calls_after_check (cs : list Call) (w : World) :
  healthChecked (this w) = true ->
  healthChecked (this (execState (calls cs) w)) = true
  /\ isHealthy (this (execState (calls cs) w)) = isHealthy (this w)
  /\ contextWindow (this (execState (calls cs) w)) = contextWindow (this w).
Proof.
  revert w. induction cs as [|c cs IH]; intros w H; [now cbn|].
  unfold execState in *. cbn [Handler.calls]. rewrite run_bind.
  destruct c as [payload | now input output]; cbn [Handler.call].
  - rewrite run_bind, run_ret. cbn [snd].
    rewrite handle_run, (healthGate_checked w H). cbn [fst snd].
    match goal with |- context [runState (calls cs) ?w1] =>
      exact (IH w1 H)
    end.
  - match goal with |- context [runState (calls cs) ?w1] =>
      exact (IH w1 H)
    end.
Qed.

(** X9. After the first request nothing about the health or the context
    window changes any more: whatever calls follow, the health counts as
    checked, its result is the one recorded and the context window is the
    one of that moment. *)
Theorem first_request_settles (payload : JSValue) (cs : list Call) (w : World) :
  let w1 := execState (handle payload) w in
  let w2 := execState (calls cs) w1 in
  healthChecked (this w2) = true
  /\ isHealthy (this w2) = isHealthy (this w1)
  /\ contextWindow (this w2) = contextWindow (this w1).
Proof. intros w1 w2. apply calls_after_check, handle_checked. Qed.

(** X10. When the first health check fails, the context window is never
    discovered: it stays what it was, for ollama too, whatever is served
    afterwards. *)
Theorem failed_check_keeps_window (payload : JSValue) (cs : list Call) (w : World) :
  healthChecked (this w) = false ->
  evalState checkHealth w = false ->
  contextWindow (this (execState (calls (Request payload :: cs)) w))
  = contextWindow (this w).
Proof.
  intros H F. unfold execState. cbn [Handler.calls Handler.call].
  rewrite !run_bind, run_ret. cbn [snd].
  destruct (calls_after_check cs (snd (runState (handle payload) w))
              (handle_checked payload w)) as (_ & _ & C).
  unfold execState in C. rewrite C.
  rewrite handle_run, (healthGate_first w H).
  unfold evalState in F. rewrite F. cbn [fst snd].
  destruct (checkHealth_first w H) as (probes & healthy & _ & ->).
  reflexivity.
Qed.

(** ** What is written *)

(** X11. Only token updates write: after some calls the files written
    are those written before and one more write of the token file for
    each token update; a request writes nothing. *)
Theorem only_token_updates_write (cs : list Call) (w : World) :
  map path (written (execState (calls cs) w))
  = (map path (written w)
     ++ repeat (tokenFilePath port tmpdir) (tokenUpdates cs))%list.
Proof.
  revert w. induction cs as [|c cs IH]; intros w.
  - cbn. now rewrite app_nil_r.
  - unfold execState in *. cbn [Handler.calls]. rewrite run_bind, IH.
    destruct c as [payload | now input output]; cbn [Handler.call].
    + rewrite run_bind, run_ret. cbn [snd].
      destruct (handle_untouched payload w) as (W & _).
      unfold execState in W. now rewrite W.
    + cbn. rewrite map_app, <- app_assoc. cbn. reflexivity.
Qed.

(** ** What is sent *)

(** The requests of one [handle]: probes, then the show request, then
    the chat request, each part possibly missing. *)
Lemma handle_sends (payload : JSValue) (w : World) :
  exists probes shows chats,
    sent (execState (handle payload) w)
    = (sent w ++ probes ++ shows ++ chats)%list
    /\ (probes = [] \/ probes = [tagsProbe] \/ probes = [tagsProbe; modelsProbe])
    /\ (shows = [] \/ shows = [showRequest])
    /\ (chats = [] \/ chats = [chatRequest payload])
    /\ (name provider <> "ollama" -> shows = []).
Proof.
  unfold execState. rewrite handle_run.
  destruct (healthChecked (this w)) eqn:H.
  - rewrite (healthGate_checked w H). cbn [fst snd sent].
    exists [], [], [chatRequest payload]. cbn. auto 10.
  - rewrite (healthGate_first w H).
    destruct (checkHealth_first w H) as (probes & healthy & P & ->).
    cbn [fst snd]. destruct healthy; cbn [fst snd sent].
    + match goal with |- context [execState _ ?w1] =>
        destruct (fetchContextWindow_effect w1) as (shows & n & S & -> & K)
      end.
      cbn [sent]. exists probes, shows, [chatRequest payload].
      split; [now rewrite <- !app_assoc|].
      split; [tauto|]. split; [exact S|]. split; [auto|].
      intros N. now destruct (K N).
    + exists probes, [], []. rewrite !app_nil_r. repeat split; auto; tauto.
Qed.

Lemma append_cancel (a x y : string) : a ++ x = a ++ y -> x = y.
Proof.
  induction a as [|c a IH]; simpl; intros E; [exact E|].
  injection E as E. now apply IH.
Qed.

(** X12. A provider other than ollama is never asked for
    [<base_url>/api/show]: unless that is its chat URL, no request a
    handler sends in its life goes there. *)
Theorem show_only_for_ollama (cs : list Call) :
  name provider <> "ollama" ->
  apiPath provider <> "/api/show" ->
  Forall (fun rq => url rq <> baseUrl provider ++ "/api/show")
    (sent (execState (calls cs) newWorld)).
Proof.
  intros N A.
  assert (G : forall cs w,
             Forall (fun rq => url rq <> baseUrl provider ++ "/api/show") (sent w) ->
             Forall (fun rq => url rq <> baseUrl provider ++ "/api/show")
               (sent (execState (calls cs) w))).
  { clear cs. intros cs. induction cs as [|c cs IH]; intros w F; [exact F|].
    unfold execState in *. cbn [Handler.calls]. rewrite run_bind.
    apply IH. destruct c as [payload | now input output]; cbn [Handler.call].
    - rewrite run_bind, run_ret. cbn [snd].
      destruct (handle_sends payload w) as (probes & shows & chats & S & P & _ & C & K).
      unfold execState in S. rewrite S, (K N). cbn [app].
      apply Forall_app. split; [exact F|]. apply Forall_app. split.
      + destruct P as [-> | [-> | ->]]; repeat constructor; cbn;
          intros E; apply append_cancel in E; discriminate.
      + destruct C as [-> | ->]; repeat constructor. cbn. intros E.
        apply append_cancel in E. contradiction.
    - exact F. }
  apply G. constructor.
Qed.

(** ** Replies that are no error *)

(** X13. A forwarded request whose answer is OK is handed to the
    streaming handler, with the dropped parameters in a header when there
    are any, provided the provider streams and the adapter leaves [stream]
    alone; and a [fetch] that fails otherwise than by a refused connection
    is thrown on as it is. *)
Theorem forwarded_outcomes (payload : JSValue) (w : World) :
  fst (runState healthGate w) = true ->
  let answered :=
    backend (sent (snd (runState healthGate w))) (chatRequest payload) in
  let droppedParams := snd (transformOpenAIToClaude payload) in
  (forall r,
      answered = Responded r -> ok r = true ->
      supportsStreaming (capabilities provider) = true ->
      (forall p q, getProp (prepareRequest p q) "stream" = getProp p "stream") ->
      evalState (handle payload) w
      = Streamed
          (match droppedParams with
           | [] => []
           | _ :: _ => [("X-Dropped-Params", String.concat ", " droppedParams)]
           end) r)
  /\ (forall error,
         answered = Rejected error -> connectionRefused error = false ->
         evalState (handle payload) w = Thrown error).
Proof.
  intros G answered droppedParams.
  rewrite (handle_forwarded payload w G). fold answered. split.
  - intros r -> K S A. unfold Handler.reply. rewrite K. cbn [negb].
    unfold Handler.outboundPayload. rewrite A.
    rewrite withToolChoice_other by discriminate.
    cbn [getProp buildPayload lookup String.eqb Ascii.eqb Bool.eqb].
    rewrite S. cbn [truthy]. fold droppedParams. unfold droppedHeaders.
    now destruct droppedParams.
  - intros error -> R. unfold Handler.reply, Handler.caught. now rewrite R.
Qed.

(** ** More about the payload *)

(** X14. A provider with tool support gets the tools of the request as
    [convertToolsToOpenAI] gives them, all and in order, when there are
    any, and no [tools] field when there are none (with an adapter that
    leaves [tools] alone). *)
Theorem tools_forwarded (payload : JSValue) :
  supportsTools (capabilities provider) = true ->
  (forall p q, getProp (prepareRequest p q) "tools" = getProp p "tools") ->
  let tools := convertToolsToOpenAI (fst (transformOpenAIToClaude payload)) in
  (tools <> [] -> getProp (outboundPayload payload) "tools" = Arr tools)
  /\ (tools = [] -> hasField (outboundPayload payload) "tools" = false).
Proof.
  intros T A tools. unfold hasField, Handler.outboundPayload. rewrite A.
  rewrite withToolChoice_other by discriminate.
  unfold finalToolsOf. rewrite T. fold tools.
  split.
  - intros N. destruct tools; [contradiction | reflexivity].
  - intros ->. reflexivity.
Qed.

(** X15. The payload has a [tool_choice] only if tools are sent and the
    tool choice of the request is of type auto or none, or of type tool
    with a name; any other tool choice, such as one of type any, is left
    out (with an adapter that leaves [tool_choice] alone). *)
Theorem tool_choice_only_if (payload : JSValue) :
  (forall p q, getProp (prepareRequest p q) "tool_choice"
               = getProp p "tool_choice") ->
  let claudeRequest := fst (transformOpenAIToClaude payload) in
  let tool_choice := getProp claudeRequest "tool_choice" in
  hasField (outboundPayload payload) "tool_choice" = true ->
  finalToolsOf provider (convertToolsToOpenAI claudeRequest) <> []
  /\ truthy tool_choice = true
  /\ (getProp tool_choice "type" = Str "auto"
      \/ getProp tool_choice "type" = Str "none"
      \/ (getProp tool_choice "type" = Str "tool"
          /\ truthy (getProp tool_choice "name") = true)).
Proof.
  intros A claudeRequest tool_choice.
  unfold hasField, Handler.outboundPayload. rewrite A.
  fold claudeRequest. unfold withToolChoice. fold tool_choice.
  assert (S : forall v s, isStr v s = true -> v = Str s).
  { intros v s E. destruct v; try discriminate. apply String.eqb_eq in E.
    now subst. }
  destruct (truthy tool_choice); [|discriminate].
  destruct (finalToolsOf provider (convertToolsToOpenAI claudeRequest)) as [|t ts];
    [discriminate|].
  cbn [andb List.length Nat.ltb Nat.leb].
  destruct (isStr (getProp tool_choice "type") "tool") eqn:T.
  - destruct (truthy (getProp tool_choice "name")) eqn:N; cbn [andb].
    + intros _. split; [discriminate|]. split; [reflexivity|].
      right. right. auto.
    + apply S in T. rewrite T. cbn. discriminate.
  - cbn [andb].
    destruct (isStr (getProp tool_choice "type") "auto") eqn:Au.
    + intros _. split; [discriminate|]. split; [reflexivity|]. left. auto.
    + destruct (isStr (getProp tool_choice "type") "none") eqn:No; cbn [orb].
      * intros _. split; [discriminate|]. split; [reflexivity|]. right. left. auto.
      * discriminate.
Qed.

(** X16. The payload names the model of the handler, whatever model the
    request names, and asks for the usage in the stream exactly when it
    asks for a stream (with an adapter that leaves these fields alone). *)
Theorem payload_model_and_usage (payload : JSValue) :
  (forall p q k, In k ["model"; "stream"; "stream_options"] ->
                 getProp (prepareRequest p q) k = getProp p k) ->
  getProp (outboundPayload payload) "model" = Str modelName
  /\ (getProp (outboundPayload payload) "stream" = Bool true ->
      getProp (outboundPayload payload) "stream_options"
      = Obj [("include_usage", Bool true)])
  /\ (getProp (outboundPayload payload) "stream" <> Bool true ->
      hasField (outboundPayload payload) "stream_options" = false).
Proof.
  intros A. unfold hasField, Handler.outboundPayload.
  rewrite !A by (simpl; auto 6).
  rewrite !withToolChoice_other by discriminate.
  cbn [getProp buildPayload lookup String.eqb Ascii.eqb Bool.eqb].
  destruct (supportsStreaming (capabilities provider)).
  - repeat split. intros N. now elim N.
  - repeat split. discriminate.
Qed.

End Effects.

Import Samples.

Lemma context_window_discovery_witness :
  contextWindow
    (this (execState
             (calls lmstudio "qwen" 3000 "/tmp"
                (scripted (answer 200 "") (answer 200 showBody) (answer 200 ""))
                sampleParse sampleParseInt sampleTransform sampleMessages
                sampleTools sampleAdapter
                [Request plainRequest; TokenUpdate 1700000000000 10 1])
             newWorld))
  = Fin 8192
  /\ contextWindow
       (this (execState
                (fetchContextWindow ollama "llama3"
                   (scripted (answer 200 "") (answer 200 showBody) (answer 200 ""))
                   sampleParse sampleParseInt)
                newWorld))
     = Fin 131072
  /\ contextWindow
       (this (execState
                (fetchContextWindow ollama "llama3"
                   (scripted (answer 200 "") (answer 200 showBodyParams)
                      (answer 200 ""))
                   sampleParse sampleParseInt)
                newWorld))
     = Fin 4096.
Proof.
  split; [|split].
  - apply (proj1 (context_window_discovery lmstudio "qwen" 3000 "/tmp"
                    (scripted (answer 200 "") (answer 200 showBody) (answer 200 ""))
                    sampleParse sampleParseInt sampleTransform sampleMessages
                    sampleTools sampleAdapter)).
    discriminate.
  - exact (proj2 (proj2
      (proj2
         (proj2 (context_window_discovery ollama "llama3" 3000 "/tmp"
                   (scripted (answer 200 "") (answer 200 showBody) (answer 200 ""))
                   sampleParse sampleParseInt sampleTransform sampleMessages
                   sampleTools sampleAdapter)
            eq_refl newWorld eq_refl)
         {| status := 200; text := showBody |} eq_refl))
      _ (Some "4096") eq_refl eq_refl eq_refl
      (or_intror (ex_intro _ "num_ctx 4096" (conj eq_refl eq_refl)))).
  - exact (proj2 (proj2
      (proj2
         (proj2 (context_window_discovery ollama "llama3" 3000 "/tmp"
                   (scripted (answer 200 "") (answer 200 showBodyParams)
                      (answer 200 ""))
                   sampleParse sampleParseInt sampleTransform sampleMessages
                   sampleTools sampleAdapter)
            eq_refl newWorld eq_refl)
         {| status := 200; text := showBodyParams |} eq_refl))
      _ (Some "4096") eq_refl eq_refl eq_refl
      (or_intror (ex_intro _ _ (conj eq_refl eq_refl)))).
Defined.



Lemma tools_gated_witness :
  hasField (sampleOutbound mlx "qwen" (toolRequest (Obj [("type", Str "auto")])))
    "tools" = false
  /\ (exists new,
         sent (execState
                 (sampleHandle mlx "qwen"
                    (up (answer 400 (errorBodyOf noToolsMessage)))
                    (toolRequest (Obj [("type", Str "auto")])))
                 newWorld)
         = ([] ++ new)%list
         /\ Forall (fun rq => forall b, body rq = Some b ->
                                        hasField b "tools" = false) new)
  /\ evalState
       (sampleHandle mlx "qwen" (up (answer 400 (errorBodyOf noToolsMessage)))
          (toolRequest (Obj [("type", Str "auto")])))
       newWorld
     = Json 400 []
         (Obj [("error", Obj [("type", Str "capability_error");
                              ("message", Str (capabilityMessage "qwen"))])]).
Proof.
  destruct (tools_gated mlx "qwen" (up (answer 400 (errorBodyOf noToolsMessage)))
              sampleParse sampleParseInt sampleTransform sampleMessages
              sampleTools sampleAdapter
              (toolRequest (Obj [("type", Str "auto")])) newWorld
              eq_refl (fun p r H => H)) as (A & B & C).
  split; [exact A | split; [exact B|]].
  exact (C {| status := 400; text := errorBodyOf noToolsMessage |}
           (Str noToolsMessage) eq_refl eq_refl eq_refl eq_refl eq_refl eq_refl).
Defined.

(** C1 as the specification words it fails: the provider has no tool
    support, the error message of the answer says that the model does not
    support tools, and the reply is a model_not_found, because the
    message has the words of model-not-found text as well and that is
    tested first. *)
Lemma capability_error_counterexample :
  supportsTools (capabilities mlx) = false
  /\ errorMessage sampleParse (errorBodyOf bothMessage) = Some (Str bothMessage)
  /\ includes bothMessage "does not support tools" = true
  /\ errorType
       (evalState
          (sampleHandle mlx "qwen" (up (answer 400 (errorBodyOf bothMessage)))
             (toolRequest (Obj [("type", Str "auto")])))
          newWorld)
     = Str "model_not_found".
Proof. repeat split. Qed.

Lemma health_gate_witness :
  evalState (sampleHandle ollama "llama3" down plainRequest) newWorld
  = Json 503 []
      (Obj [("error",
             Obj [("type", Str "connection_error");
                  ("message",
                   Str "Cannot connect to Ollama at http://localhost:11434. Make sure Ollama is running with: ollama serve")])])
  /\ (sent (execState (sampleHandle ollama "llama3" down plainRequest) newWorld)
      = ([] ++ [GET "http://localhost:11434/api/tags"])%list
      \/ sent (execState (sampleHandle ollama "llama3" down plainRequest) newWorld)
         = ([] ++ [GET "http://localhost:11434/api/tags";
                   GET "http://localhost:11434/v1/models"])%list).
Proof.
  exact (proj1 (proj2
    (health_gate ollama "llama3" down sampleParse sampleParseInt sampleTransform
       sampleMessages sampleTools sampleAdapter plainRequest newWorld eq_refl))
    eq_refl).
Defined.

(** C4 as the specification words it fails: the message for LM Studio
    names no start command. *)
Lemma start_command_counterexample :
  getConnectionErrorMessage lmstudio
  = "Cannot connect to LM Studio at http://localhost:1234. Make sure LM Studio server is running."
  /\ ~ namesStartCommand (getConnectionErrorMessage lmstudio).
Proof.
  split; [reflexivity|].
  intros (before & command & _ & E).
  assert (I : includes (getConnectionErrorMessage lmstudio) " with: " = true)
    by (rewrite E; apply includes_app).
  discriminate I.
Qed.

Lemma parameter_policy_witness :
  body (chatRequest ollama "llama3" sampleTransform sampleMessages sampleTools
          sampleAdapter plainRequest)
  = Some (sampleOutbound ollama "llama3" plainRequest)
  /\ getProp (sampleOutbound ollama "llama3" plainRequest) "max_tokens" = num 100
  /\ getProp (sampleOutbound ollama "llama3" plainRequest) "temperature" = num 1
  /\ getProp (sampleOutbound ollama "llama3" plainRequest) "stream" = Bool true.
Proof.
  exact (parameter_policy ollama "llama3" sampleTransform sampleMessages
           sampleTools sampleAdapter plainRequest (fun p r k _ => eq_refl)).
Defined.

(** C5 as the specification words it fails: the caller asks for no
    stream and the payload sent asks for one. *)
Lemma stream_counterexample :
  getProp (fst (sampleTransform plainRequest)) "stream" = Bool false
  /\ getProp (sampleOutbound ollama "llama3" plainRequest) "stream" = Bool true
  /\ sent (execState (sampleHandle ollama "llama3" (up (answer 200 "{}"))
                        plainRequest)
             {| this := {| healthChecked := true; isHealthy := true;
                           contextWindow := Fin 8192;
                           sessionInputTokens := 0; sessionOutputTokens := 0 |};
                sent := []; written := [] |})
     = [POST "http://localhost:11434/v1/chat/completions"
          (sampleOutbound ollama "llama3" plainRequest)].
Proof. repeat split. Qed.

Lemma tool_choice_policy_witness :
  getProp (sampleOutbound ollama "llama3"
             (toolRequest (Obj [("type", Str "tool"); ("name", Str "Read")])))
    "tool_choice"
  = Obj [("type", Str "function"); ("function", Obj [("name", Str "Read")])]
  /\ getProp (sampleOutbound ollama "llama3"
                (toolRequest (Obj [("type", Str "none")])))
       "tool_choice"
     = Str "none"
  /\ hasField (sampleOutbound mlx "qwen"
                 (toolRequest (Obj [("type", Str "tool"); ("name", Str "Read")])))
       "tool_choice" = false.
Proof.
  split; [|split].
  - exact (proj1
      (proj1 (tool_choice_policy ollama "llama3" sampleTransform sampleMessages
                sampleTools sampleAdapter
                (toolRequest (Obj [("type", Str "tool"); ("name", Str "Read")]))
                (fun p r => eq_refl))
         ltac:(discriminate) eq_refl)
      eq_refl eq_refl).
  - exact (proj2
      (proj1 (tool_choice_policy ollama "llama3" sampleTransform sampleMessages
                sampleTools sampleAdapter
                (toolRequest (Obj [("type", Str "none")]))
                (fun p r => eq_refl))
         ltac:(discriminate) eq_refl)
      "none" (or_intror eq_refl) eq_refl).
  - exact (proj2 (tool_choice_policy mlx "qwen" sampleTransform sampleMessages
                    sampleTools sampleAdapter
                    (toolRequest (Obj [("type", Str "tool"); ("name", Str "Read")]))
                    (fun p r => eq_refl))
             eq_refl).
Defined.

(** C8 as the specification words it fails: a tool choice of type auto is
    not passed on as it is, it becomes the string; and a tool choice that
    is the string is not passed on at all. *)
Lemma tool_choice_counterexample :
  getProp (sampleOutbound ollama "llama3"
             (toolRequest (Obj [("type", Str "auto")])))
    "tool_choice"
  = Str "auto"
  /\ Str "auto" <> Obj [("type", Str "auto")]
  /\ getProp (sampleOutbound ollama "llama3" (toolRequest (Str "auto")))
       "tool_choice"
     = Undefined
  /\ hasField (sampleOutbound ollama "llama3" (toolRequest (Str "auto")))
       "tools" = true.
Proof. repeat split. discriminate. Qed.

(** ** The further properties at work *)

(** A server that answers [/api/tags] is healthy; one that answers it with
    a 404, as a server without that path does, is asked nothing else. *)
Lemma checkHealth_decides_witness :
  evalState (checkHealth ollama (up (answer 200 ""))) newWorld = true
  /\ sent (execState
             (checkHealth lmstudio (scripted (answer 404 "") refused refused))
             newWorld)
     = ([] ++ [GET "http://localhost:1234/api/tags"])%list.
Proof.
  split.
  - apply (proj1 (checkHealth_decides ollama (up (answer 200 "")) newWorld eq_refl)).
    left. exists {| status := 200; text := "" |}. split; reflexivity.
  - exact (proj2 (checkHealth_decides lmstudio
                    (scripted (answer 404 "") refused refused) newWorld eq_refl)
             {| status := 404; text := "" |} eq_refl).
Defined.

(** Ollama is down at the first request and up from then on: the second
    request is forwarded, and the context window is still the default. *)
Lemma failed_check_keeps_window_witness :
  contextWindow
    (this (execState
             (calls ollama "llama3" 3000 "/tmp"
                (fun history rq =>
                   if (List.length history <? 2)%nat then refused
                   else up (answer 200 "") history rq)
                sampleParse sampleParseInt sampleTransform sampleMessages
                sampleTools sampleAdapter
                [Request plainRequest; Request plainRequest])
             newWorld))
  = contextWindow (this newWorld).
Proof.
  exact (failed_check_keeps_window ollama "llama3" 3000 "/tmp"
           (fun history rq =>
              if (List.length history <? 2)%nat then refused
              else up (answer 200 "") history rq)
           sampleParse sampleParseInt sampleTransform sampleMessages
           sampleTools sampleAdapter plainRequest [Request plainRequest]
           newWorld eq_refl eq_refl).
Defined.

Lemma show_only_for_ollama_witness :
  Forall (fun rq => url rq <> baseUrl lmstudio ++ "/api/show")
    (sent (execState
             (calls lmstudio "qwen" 3000 "/tmp" (up (answer 200 ""))
                sampleParse sampleParseInt sampleTransform sampleMessages
                sampleTools sampleAdapter
                [Request plainRequest; TokenUpdate 1700000000000 10 1;
                 Request plainRequest])
             newWorld)).
Proof.
  apply (show_only_for_ollama lmstudio "qwen" 3000 "/tmp" (up (answer 200 ""))
           sampleParse sampleParseInt sampleTransform sampleMessages
           sampleTools sampleAdapter);
    intros E; vm_compute in E; discriminate E.
Defined.

Lemma forwarded_outcomes_witness :
  evalState (sampleHandle ollama "llama3" (up (answer 200 "data: [DONE]"))
               plainRequest) newWorld
  = Streamed [] {| status := 200; text := "data: [DONE]" |}
  /\ evalState
       (sampleHandle ollama "llama3"
          (up (Rejected (Obj [("code", Str "ETIMEDOUT")]))) plainRequest)
       newWorld
     = Thrown (Obj [("code", Str "ETIMEDOUT")]).
Proof.
  split.
  - exact (proj1 (forwarded_outcomes ollama "llama3"
                    (up (answer 200 "data: [DONE]"))
                    sampleParse sampleParseInt sampleTransform sampleMessages
                    sampleTools sampleAdapter plainRequest newWorld eq_refl)
             {| status := 200; text := "data: [DONE]" |} eq_refl eq_refl eq_refl
             (fun p q => eq_refl)).
  - exact (proj2 (forwarded_outcomes ollama "llama3"
                    (up (Rejected (Obj [("code", Str "ETIMEDOUT")])))
                    sampleParse sampleParseInt sampleTransform sampleMessages
                    sampleTools sampleAdapter plainRequest newWorld eq_refl)
             (Obj [("code", Str "ETIMEDOUT")]) eq_refl eq_refl).
Defined.

Lemma tools_forwarded_witness :
  getProp (sampleOutbound ollama "llama3" (toolRequest (Obj [("type", Str "auto")])))
    "tools"
  = Arr (sampleTools (toolRequest (Obj [("type", Str "auto")])))
  /\ hasField (sampleOutbound ollama "llama3" plainRequest) "tools" = false.
Proof.
  split.
  - apply (proj1 (tools_forwarded ollama "llama3" sampleTransform sampleMessages
                    sampleTools sampleAdapter
                    (toolRequest (Obj [("type", Str "auto")]))
                    eq_refl (fun p q => eq_refl))).
    discriminate.
  - exact (proj2 (tools_forwarded ollama "llama3" sampleTransform sampleMessages
                    sampleTools sampleAdapter plainRequest
                    eq_refl (fun p q => eq_refl))
             eq_refl).
Defined.

Lemma tool_choice_only_if_witness :
  finalToolsOf ollama
    (sampleTools (toolRequest (Obj [("type", Str "tool"); ("name", Str "Read")])))
  <> []
  /\ truthy (Obj [("type", Str "tool"); ("name", Str "Read")]) = true
  /\ (Str "tool" = Str "auto"
      \/ Str "tool" = Str "none"
      \/ (Str "tool" = Str "tool" /\ truthy (Str "Read") = true)).
Proof.
  exact (tool_choice_only_if ollama "llama3" sampleTransform sampleMessages
           sampleTools sampleAdapter
           (toolRequest (Obj [("type", Str "tool"); ("name", Str "Read")]))
           (fun p q => eq_refl) eq_refl).
Defined.

Lemma payload_model_and_usage_witness :
  getProp (sampleOutbound ollama "llama3" plainRequest) "model" = Str "llama3"
  /\ getProp (sampleOutbound ollama "llama3" plainRequest) "stream_options"
     = Obj [("include_usage", Bool true)].
Proof.
  destruct (payload_model_and_usage ollama "llama3" sampleTransform
              sampleMessages sampleTools sampleAdapter plainRequest
              (fun p q k _ => eq_refl)) as (A & B & _).
  split; [exact A | exact (B eq_refl)].
Defined.

End HandlerFacts.

(* ===================================================================== *)
(** * More about the registry *)
(* ===================================================================== *)

Module RegistryMore.
Import JSString JSStringFacts Registry.

(** ** Strings *)

Lemma length_append (a b : string) :
  String.length (a ++ b) = (String.length a + String.length b)%nat.
Proof. induction a as [|c a IH]; simpl; [reflexivity | now rewrite IH]. Qed.

Lemma eqb_append_self (b suffix : string) :
  String.eqb (b ++ suffix) suffix = true -> b = "".
Proof.
  intros E. apply String.eqb_eq in E.
  assert (L : String.length (b ++ suffix) = String.length suffix) by now rewrite E.
  rewrite length_append in L. destruct b; [reflexivity | simpl in L; lia].
Qed.

Lemma removeSuffix_append (b suffix : string) :
  removeSuffix (b ++ suffix) suffix = b.
Proof.
  induction b as [|c b IH].
  - destruct suffix; simpl; [reflexivity | now rewrite Ascii.eqb_refl, String.eqb_refl].
  - cbn [append removeSuffix].
    destruct (String.eqb (String c (b ++ suffix)) suffix) eqn:E.
    + apply (eqb_append_self (String c b)) in E. discriminate.
    + now rewrite IH.
Qed.

Lemma endsWith_append (b suffix : string) : endsWith (b ++ suffix) suffix = true.
Proof.
  induction b as [|c b IH]; simpl.
  - destruct suffix; simpl; [reflexivity | now rewrite Ascii.eqb_refl, String.eqb_refl].
  - rewrite IH. apply orb_true_r.
Qed.

Lemma endsWith_split (s suffix : string) :
  endsWith s suffix = true -> exists b, s = b ++ suffix.
Proof.
  induction s as [|c s IH]; cbn [endsWith]; intros H.
  - rewrite orb_false_r in H. apply String.eqb_eq in H. now exists "".
  - apply orb_true_iff in H. destruct H as [H|H].
    + exists "". apply String.eqb_eq in H. exact H.
    + destruct (IH H) as [b ->]. now exists (String c b).
Qed.

(** Slashes at the end go, and nothing else. *)
Lemma stripTrailingSlashes_append (b slashes : string) :
  allUnits (fun c => Ascii.eqb c "/") slashes = true ->
  stripTrailingSlashes (b ++ slashes) = stripTrailingSlashes b.
Proof.
  intros A. induction b as [|c b IH]; simpl.
  - induction slashes as [|c slashes IH]; [reflexivity|].
    simpl in *. apply andb_true_iff in A. destruct A as [C A].
    now rewrite (IH A), C.
  - now rewrite IH.
Qed.

Lemma stripTrailingSlashes_fixed (b : string) (c : ascii) :
  Ascii.eqb c "/" = false ->
  stripTrailingSlashes (b ++ String c "") = b ++ String c "".
Proof.
  intros C. induction b as [|x b IH]; simpl.
  - now rewrite C.
  - rewrite IH. destruct (b ++ String c "") eqn:E.
    + destruct b; discriminate.
    + simpl. now rewrite andb_false_r.
Qed.

Lemma stripTrailingSlashes_no_slash (s : string) :
  endsWith (stripTrailingSlashes s) "/" = false.
Proof.
  induction s as [|c s IH]; [reflexivity|].
  simpl. destruct (Ascii.eqb c "/" && negb (nonEmpty (stripTrailingSlashes s))) eqn:E.
  - reflexivity.
  - cbn [endsWith]. rewrite IH, orb_false_r.
    destruct (stripTrailingSlashes s) as [|y r] eqn:R.
    + simpl in E. rewrite andb_true_r in E. simpl. now rewrite E.
    + simpl. destruct (Ascii.eqb c "/"); reflexivity.
Qed.

(** ** Resolution by prefix *)

Lemma matchPrefix_sound (modelId pre : string) (pres : list string) :
  matchPrefix modelId pres = Some pre ->
  In pre pres /\ startsWith modelId pre = true.
Proof.
  induction pres as [|x pres IH]; simpl; [discriminate|].
  destruct (startsWith modelId x) eqn:E.
  - intros H. injection H as <-. auto.
  - intros H. destruct (IH H). auto.
Qed.

Lemma resolveIn_sound (providers : list LocalProvider) (modelId : string)
  (r : ResolvedProvider) :
  resolveIn providers modelId = Some r ->
  In (provider r) providers
  /\ exists pre,
       In pre (prefixes (provider r))
       /\ startsWith modelId pre = true
       /\ modelName r = slice (String.length pre) modelId.
Proof.
  induction providers as [|p ps IH]; simpl; [discriminate|].
  destruct (matchPrefix modelId (prefixes p)) as [pre|] eqn:E.
  - intros H. injection H as <-. simpl.
    destruct (matchPrefix_sound _ _ _ E). split; [now left|].
    exists pre. auto.
  - intros H. destruct (IH H) as [I X]. split; [now right | exact X].
Qed.

Section Resolution.

Variable env : string -> option string.
Variable URL_new : string -> option URL.

(** X1. What [resolveProvider] returns is a registered provider, and the
    id is one of that provider's prefixes followed by the model name. *)
Theorem resolveProvider_sound (modelId : string) (r : ResolvedProvider) :
  resolveProvider env modelId = Some r ->
  In (provider r) (getProviders env)
  /\ exists pre,
       In pre (prefixes (provider r)) /\ modelId = pre ++ modelName r.
Proof.
  intros H. apply resolveIn_sound in H. destruct H as (I & pre & P & S & M).
  split; [exact I|]. exists pre. split; [exact P|].
  rewrite M. now apply startsWith_split.
Qed.

(** X2. No id is resolved both by prefix and as a URL: an id that
    [resolveProvider] accepts, [parseUrlModel] rejects, so the order in
    which the two are tried makes no difference. *)
Theorem prefix_and_url_exclusive (modelId : string) (r : ResolvedProvider) :
  resolveProvider env modelId = Some r ->
  parseUrlModel URL_new modelId = None.
Proof.
  intros H. apply resolveIn_sound in H. destruct H as (I & pre & P & S & _).
  apply startsWith_split in S. rewrite S. unfold parseUrlModel.
  simpl in I.
  repeat (destruct I as [E|I]; [
    rewrite <- E in P; simpl in P;
    repeat (destruct P as [<-|P]; [reflexivity|]);
    contradiction |]).
  contradiction.
Qed.

Lemma orElse_nonEmpty (a : option string) (b : string) :
  nonEmpty b = true -> nonEmpty (orElse a b) = true.
Proof.
  intros B. unfold orElse. destruct a as [s|]; [|exact B].
  now destruct (nonEmpty s) eqn:E.
Qed.

Lemma orElse_unset (a : option string) (b : string) :
  orElse (match a with
          | Some s => if nonEmpty s then Some s else None
          | None => None
          end) b
  = orElse a b.
Proof.
  destruct a as [s|]; [|reflexivity].
  unfold orElse. destruct (nonEmpty s) eqn:E; [now rewrite E | reflexivity].
Qed.

(** X3. Whatever the environment, no registered provider has an empty
    base URL, and a variable set to the empty string counts like one that
    is not set. *)
Theorem registered_base_urls :
  (forall p, In p (getProviders env) -> nonEmpty (baseUrl p) = true)
  /\ getProviders
       (fun k => match env k with
                 | Some s => if nonEmpty s then Some s else None
                 | None => None
                 end)
     = getProviders env.
Proof.
  split.
  - intros p I. simpl in I.
    repeat (destruct I as [<-|I];
            [cbn [baseUrl]; repeat apply orElse_nonEmpty; reflexivity|]).
    contradiction.
  - unfold getProviders. now rewrite !orElse_unset.
Qed.

(** ** URL models *)

Lemma includes_cons_other (c : ascii) (seg : string) :
  Ascii.eqb c "/" = false ->
  includes (String c seg) "/" = includes seg "/".
Proof.
  intros C. cbn [includes String.prefix].
  destruct (ascii_dec "/" c) as [<-|_]; [discriminate | reflexivity].
Qed.

Lemma split_no_separator (s seg : string) :
  In seg (split "/" s) -> includes seg "/" = false.
Proof.
  revert seg. induction s as [|c s IH]; intros seg; cbn [split].
  - intros [<-|[]]. reflexivity.
  - destruct (Ascii.eqb c "/") eqn:C.
    + intros [<-|I]; [reflexivity | now apply IH].
    + destruct (split "/" s) as [|seg0 segs] eqn:E.
      * intros [<-|[]]. now rewrite includes_cons_other.
      * intros [<-|I].
        -- rewrite includes_cons_other by exact C. apply IH. now left.
        -- apply IH. now right.
Qed.

Lemma slashed_snoc (leading : list string) (model : string) :
  slashed (leading ++ [model]) = slashed leading ++ "/" ++ model.
Proof.
  induction leading as [|seg segs IH]; simpl.
  - f_equal. induction model; simpl; [reflexivity | now f_equal].
  - rewrite IH. f_equal. now rewrite !append_assoc.
Qed.

Lemma basePath_slashed (leading : list string) (model : string) :
  (forall seg, In seg leading -> nonEmpty seg = true) ->
  (if (1 <? List.length (leading ++ [model])%list)%nat then
     if nonEmpty (String.concat "/" leading)
     then "/" ++ String.concat "/" leading else ""
   else "")
  = slashed leading.
Proof.
  intros N. destruct leading as [|seg segs]; [reflexivity|].
  replace (1 <? List.length ((seg :: segs) ++ [model])%list)%nat with true
    by (symmetry; apply Nat.ltb_lt; rewrite length_app; simpl; lia).
  rewrite RegistryFacts.nonEmpty_concat by (apply N; now left).
  apply RegistryFacts.concat_slashed.
Qed.

(** X4. When [parseUrlModel] returns a result, the id starts with one of
    the two schemes and is a URL; the model name is not empty and has no
    slash in it; and the base URL, a slash and the model name are the
    protocol, the host and the path segments of the URL that are not
    empty. *)
Theorem parseUrlModel_sound (modelId : string) (parsed : UrlParsedModel) :
  parseUrlModel URL_new modelId = Some parsed ->
  (startsWith modelId "http://" = true \/ startsWith modelId "https://" = true)
  /\ nonEmpty (parsedModelName parsed) = true
  /\ includes (parsedModelName parsed) "/" = false
  /\ exists url,
       URL_new modelId = Some url
       /\ parsedBaseUrl parsed ++ "/" ++ parsedModelName parsed
          = protocol url ++ "//" ++ host url ++ slashed (pathParts url).
Proof.
  unfold parseUrlModel.
  destruct (negb (startsWith modelId "http://")
            && negb (startsWith modelId "https://")) eqn:G; [discriminate|].
  destruct (URL_new modelId) as [url|]; [|discriminate].
  destruct (pathParts url) as [|seg segs] eqn:E; [discriminate|].
  assert (D : exists leading model, seg :: segs = (leading ++ [model])%list).
  { exists (removelast (seg :: segs)), (last (seg :: segs) "").
    apply app_removelast_last. discriminate. }
  destruct D as (leading & model & D). rewrite D in *.
  rewrite RegistryFacts.length_snoc_pos, last_last, removelast_last.
  assert (I : In model (pathParts url))
    by (rewrite E; apply in_or_app; right; now left).
  unfold pathParts in I. apply filter_In in I. destruct I as [I N].
  intros P. injection P as <-. cbn [parsedModelName parsedBaseUrl].
  split; [|split; [exact N | split; [now apply (split_no_separator (pathname url))|]]].
  - apply andb_false_iff in G.
    destruct G as [G|G]; apply negb_false_iff in G; auto.
  - exists url. split; [reflexivity|].
    rewrite E, slashed_snoc, basePath_slashed.
    + rewrite !append_assoc. cbn [append]. now rewrite !append_assoc.
    + intros seg' I'. apply (RegistryFacts.pathParts_nonEmpty url).
      rewrite E. apply in_or_app. now left.
Qed.

(** ** The custom base URL *)

(** X5. [createCustomBaseUrlProvider] returns null exactly when
    [CLAUDISH_BASE_URL] is not set or empty. A value that names a
    chat-completions endpoint, with or without slashes after it, gives a
    provider whose request URL is that endpoint, with the model name as
    given; any other value gives as base URL the value without the
    slashes it ends in. *)
Theorem custom_base_url_endpoint (modelName : string) :
  (createCustomBaseUrlProvider env modelName = None
   <-> hasCustomBaseUrl env = false)
  /\ (forall b slashes,
         env "CLAUDISH_BASE_URL" = Some (b ++ "/chat/completions" ++ slashes) ->
         allUnits (fun c => Ascii.eqb c "/") slashes = true ->
         exists r,
           createCustomBaseUrlProvider env modelName = Some r
           /\ Registry.modelName r = modelName
           /\ baseUrl (provider r) = b
           /\ baseUrl (provider r) ++ apiPath (provider r)
              = b ++ "/chat/completions")
  /\ (forall u r,
         env "CLAUDISH_BASE_URL" = Some u ->
         createCustomBaseUrlProvider env modelName = Some r ->
         endsWith (stripTrailingSlashes u) "/chat/completions" = false ->
         baseUrl (provider r) = stripTrailingSlashes u
         /\ endsWith (baseUrl (provider r)) "/" = false
         /\ Registry.modelName r = modelName).
Proof.
  unfold createCustomBaseUrlProvider, hasCustomBaseUrl.
  split; [|split].
  - destruct (env "CLAUDISH_BASE_URL") as [u|]; [|split; reflexivity].
    destruct (nonEmpty u); cbn [negb]; split; intros H;
      reflexivity || discriminate.
  - intros b slashes -> A.
    assert (N : nonEmpty (b ++ "/chat/completions" ++ slashes) = true)
      by (destruct b; reflexivity).
    rewrite N. cbn [negb].
    assert (S : stripTrailingSlashes (b ++ "/chat/completions" ++ slashes)
                = b ++ "/chat/completions").
    { rewrite <- append_assoc, (stripTrailingSlashes_append _ _ A).
      change "/chat/completions" with ("/chat/completion" ++ String "s" "").
      rewrite <- append_assoc. now apply stripTrailingSlashes_fixed. }
    rewrite S, endsWith_append, removeSuffix_append.
    eexists. split; [reflexivity|]. cbn. auto.
  - intros u r -> H E. destruct (nonEmpty u); cbn [negb] in H; [|discriminate].
    rewrite E in H. injection H as <-. cbn.
    split; [reflexivity|]. split; [apply stripTrailingSlashes_no_slash | reflexivity].
Qed.

(** X6. [isLocalProvider] says yes exactly when one of the three ways to
    a provider gives one: [resolveProvider], [parseUrlModel] or
    [createCustomBaseUrlProvider]. *)
Theorem isLocalProvider_has_provider (modelId : string) :
  isLocalProvider env URL_new modelId = true
  <-> (resolveProvider env modelId <> None
       \/ parseUrlModel URL_new modelId <> None
       \/ createCustomBaseUrlProvider env modelId <> None).
Proof.
  unfold isLocalProvider, createCustomBaseUrlProvider, hasCustomBaseUrl.
  destruct (resolveProvider env modelId);
    [split; [intros _; left; discriminate | reflexivity]|].
  destruct (parseUrlModel URL_new modelId);
    [split; [intros _; right; left; discriminate | reflexivity]|].
  destruct (env "CLAUDISH_BASE_URL") as [u|].
  - destruct (nonEmpty u); cbn [negb].
    + split; [intros _; right; right; discriminate | reflexivity].
    + split; [discriminate | intros [N|[N|N]]; now elim N].
  - split; [discriminate | intros [N|[N|N]]; now elim N].
Qed.

End Resolution.

Lemma resolveProvider_sound_witness :
  In Samples.lmstudio (getProviders Samples.noEnv)
  /\ exists pre,
       In pre (prefixes Samples.lmstudio) /\ "mlstudio:qwen" = pre ++ "qwen".
Proof.
  exact (resolveProvider_sound Samples.noEnv "mlstudio:qwen"
           {| provider := Samples.lmstudio; modelName := "qwen" |} eq_refl).
Defined.

Lemma prefix_and_url_exclusive_witness :
  parseUrlModel Samples.sampleURL "vllm/http://localhost:11434/v1/llama3" = None.
Proof.
  exact (prefix_and_url_exclusive Samples.noEnv Samples.sampleURL
           "vllm/http://localhost:11434/v1/llama3"
           {| provider := Samples.registered 2;
              modelName := "http://localhost:11434/v1/llama3" |} eq_refl).
Defined.

Lemma parseUrlModel_sound_witness :
  (startsWith "http://localhost:11434/v1/llama3" "http://" = true
   \/ startsWith "http://localhost:11434/v1/llama3" "https://" = true)
  /\ nonEmpty "llama3" = true
  /\ includes "llama3" "/" = false
  /\ exists url,
       Samples.sampleURL "http://localhost:11434/v1/llama3" = Some url
       /\ "http://localhost:11434/v1" ++ "/" ++ "llama3"
          = protocol url ++ "//" ++ host url ++ slashed (pathParts url).
Proof.
  exact (parseUrlModel_sound Samples.sampleURL "http://localhost:11434/v1/llama3"
           {| parsedBaseUrl := "http://localhost:11434/v1";
              parsedModelName := "llama3" |} eq_refl).
Defined.

Lemma custom_base_url_endpoint_witness :
  (exists r,
      createCustomBaseUrlProvider Samples.endpointEnv "gpt-4o" = Some r
      /\ modelName r = "gpt-4o"
      /\ baseUrl (provider r) = "http://localhost:9999/v1"
      /\ baseUrl (provider r) ++ apiPath (provider r)
         = "http://localhost:9999/v1" ++ "/chat/completions")
  /\ (baseUrl (provider
                 {| provider :=
                      {| name := "custom-base-url";
                         baseUrl := "http://localhost:9999/v1";
                         apiPath := "/chat/completions";
                         envVar := "CLAUDISH_BASE_URL";
                         apiKeyEnvVar := "";
                         prefixes := [];
                         capabilities := defaultCapabilities true |};
                    modelName := "gpt-4o" |})
      = stripTrailingSlashes "http://localhost:9999/v1/"
      /\ endsWith "http://localhost:9999/v1" "/" = false
      /\ "gpt-4o" = "gpt-4o").
Proof.
  split.
  - exact (proj1 (proj2 (custom_base_url_endpoint Samples.endpointEnv "gpt-4o"))
             "http://localhost:9999/v1" "//" eq_refl eq_refl).
  - exact (proj2 (proj2 (custom_base_url_endpoint Samples.rootEnv "gpt-4o"))
             "http://localhost:9999/v1/" _ eq_refl eq_refl eq_refl).
Defined.

End RegistryMore.

(* ===================================================================== *)
(** * More about the port finder *)
(* ===================================================================== *)

Module PortsMore.
Import Ports.

Section Search.

Variable random : Q.

(** What the sequential search returns is the first port it finds
    available, after as many failed probes as ports lie before it. *)
Lemma searchFrom_first (available : nat -> Z -> bool)
  (rounds probe : nat) (port p : Z) :
  searchFrom available rounds probe port = Some p ->
  exists k,
    (k < rounds)%nat /\ p = (port + Z.of_nat k)%Z
    /\ available (probe + k)%nat p = true
    /\ forall j, (j < k)%nat ->
                 available (probe + j)%nat (port + Z.of_nat j)%Z = false.
Proof.
  revert probe port.
  induction rounds as [|rounds IH]; intros probe port H; simpl in H;
    [discriminate|].
  destruct (available probe port) eqn:A.
  - injection H as <-. exists 0%nat.
    rewrite Nat.add_0_r, Z.add_0_r. repeat split; auto; lia.
  - destruct (IH _ _ H) as (k & K & -> & T & F). exists (S k).
    split; [lia|]. split; [lia|].
    split; [now rewrite Nat.add_succ_r|].
    intros [|j] J.
    + now rewrite Nat.add_0_r, Z.add_0_r.
    + rewrite Nat.add_succ_r.
      replace (port + Z.of_nat (S j))%Z with (port + 1 + Z.of_nat j)%Z by lia.
      apply F. lia.
Qed.

Lemma searchFrom_none (available : nat -> Z -> bool)
  (rounds probe : nat) (port : Z) :
  searchFrom available rounds probe port = None ->
  forall j, (j < rounds)%nat ->
            available (probe + j)%nat (port + Z.of_nat j)%Z = false.
Proof.
  revert probe port.
  induction rounds as [|rounds IH]; intros probe port H j J; [lia|].
  simpl in H. destruct (available probe port) eqn:A; [discriminate|].
  destruct j as [|j].
  - now rewrite Nat.add_0_r, Z.add_0_r.
  - rewrite Nat.add_succ_r.
    replace (port + Z.of_nat (S j))%Z with (port + 1 + Z.of_nat j)%Z by lia.
    apply (IH _ _ H). lia.
Qed.

(** X19. A port that [findAvailablePort] returns is one whose bind, in a
    probe of this call, did not fail with [EADDRINUSE]; the call makes no
    more probes than one for the random port and one for each port of the
    range. *)
Theorem returned_port_was_free (listen : nat -> Z -> ListenResult)
  (startPort endPort : option Z) (p : Z) :
  findAvailablePort random (isPortAvailable listen) startPort endPort = Some p ->
  let s := match startPort with Some s => s | None => 3000%Z end in
  let e := match endPort with Some e => e | None => 9000%Z end in
  exists n,
    listen n p <> Failed (Some "EADDRINUSE")
    /\ (n <= Z.to_nat (e - s + 1))%nat.
Proof.
  intros H s e. unfold findAvailablePort in H. fold s e in H.
  assert (F : forall n, isPortAvailable listen n p = true ->
                        listen n p <> Failed (Some "EADDRINUSE")).
  { intros n A E. unfold isPortAvailable in A. rewrite E in A. discriminate. }
  unfold findAvailablePortIn in H.
  destruct (isPortAvailable listen 0 _) eqn:A.
  - injection H as <-. exists 0%nat. split; [now apply F | lia].
  - apply searchFrom_first in H. destruct H as (k & K & _ & T & _).
    exists (1 + k)%nat. split; [now apply F | lia].
Qed.

(** X20. When the ports do not change during the call, [findAvailablePort]
    on a range that is not empty throws exactly when no port of the range
    is available; a port it returns is available, and when it is not the
    random one, it is the lowest available port of the range. *)
Theorem findAvailablePort_complete (available : Z -> bool)
  (startPort endPort : Z) :
  0 <= random -> random < 1 ->
  (startPort <= endPort)%Z ->
  let found :=
    findAvailablePort random (fun _ => available) (Some startPort) (Some endPort) in
  let randomPort :=
    (Qfloor (random * inject_Z (endPort - startPort + 1)) + startPort)%Z in
  (found = None
   <-> forall p, (startPort <= p <= endPort)%Z -> available p = false)
  /\ (forall p,
         found = Some p ->
         available p = true
         /\ (p <> randomPort ->
             forall p', (startPort <= p' < p)%Z -> available p' = false)).
Proof.
  intros H0 H1 L found randomPort. subst found.
  unfold findAvailablePort, findAvailablePortIn. fold randomPort.
  assert (R : (startPort <= randomPort <= endPort)%Z).
  { pose proof (PortsFacts.random_index random (endPort - startPort + 1) H0 H1
                  ltac:(lia)).
    subst randomPort. lia. }
  destruct (available randomPort) eqn:A.
  - split.
    + split; [discriminate|]. intros N. rewrite (N randomPort R) in A.
      discriminate.
    + intros p E. injection E as <-. split; [exact A|]. intros N. now elim N.
  - destruct (searchFrom (fun _ => available) _ 1 startPort) as [q|] eqn:S.
    + apply searchFrom_first in S. destruct S as (k & K & -> & T & F).
      split.
      * split; [discriminate|]. intros N. rewrite N in T; [discriminate | lia].
      * intros p E. injection E as <-. split; [exact T|]. intros _ p' P.
        replace p' with (startPort + Z.of_nat (Z.to_nat (p' - startPort)))%Z by lia.
        apply (F (Z.to_nat (p' - startPort))). lia.
    + split; [|discriminate]. split; [|reflexivity]. intros _ p P.
      replace p with (startPort + Z.of_nat (Z.to_nat (p - startPort)))%Z by lia.
      apply (searchFrom_none _ _ _ _ S (Z.to_nat (p - startPort))). lia.
Qed.

End Search.

Lemma returned_port_was_free_witness :
  exists n,
    (fun (_ : nat) (p : Z) =>
       if (p =? 3000)%Z then Failed (Some "EADDRINUSE")
       else if (p =? 3001)%Z then Failed (Some "EACCES")
       else Listening) n 3001%Z
    <> Failed (Some "EADDRINUSE")
    /\ (n <= Z.to_nat (3002 - 3000 + 1))%nat.
Proof.
  exact (returned_port_was_free 0
           (fun (_ : nat) (p : Z) =>
              if (p =? 3000)%Z then Failed (Some "EADDRINUSE")
              else if (p =? 3001)%Z then Failed (Some "EACCES")
              else Listening)
           (Some 3000%Z) (Some 3002%Z) 3001%Z eq_refl).
Defined.

Lemma findAvailablePort_complete_witness :
  (findAvailablePort (1 # 2) (fun _ p => (p =? 4007)%Z) (Some 4000%Z) (Some 4010%Z)
   = None
   <-> forall p, (4000 <= p <= 4010)%Z -> (p =? 4007)%Z = false)
  /\ (forall p,
         findAvailablePort (1 # 2) (fun _ p => (p =? 4007)%Z)
           (Some 4000%Z) (Some 4010%Z) = Some p ->
         (p =? 4007)%Z = true
         /\ (p <> (Qfloor ((1 # 2) * inject_Z (4010 - 4000 + 1)) + 4000)%Z ->
             forall p', (4000 <= p' < p)%Z -> (p' =? 4007)%Z = false)).
Proof.
  apply (findAvailablePort_complete (1 # 2) (fun p => (p =? 4007)%Z) 4000 4010).
  - discriminate.
  - reflexivity.
  - lia.
Defined.

End PortsMore.

(* ===================================================================== *)
(** * More about the handler: the percentage and the pattern *)
(* ===================================================================== *)

Module HandlerMore.
Import JSString JSStringFacts JS Registry Handler.

(** ** The percentage of the context that is left *)

Lemma window_positive (q : Q) : negb (Qle_bool q 0) = true <-> 0 < q.
Proof.
  rewrite negb_true_iff. split.
  - intros H. apply Qnot_le_lt. intros L. apply Qle_bool_iff in L. congruence.
  - intros H. destruct (Qle_bool q 0) eqn:E; [|reflexivity].
    apply Qle_bool_iff in E. lra.
Qed.



Lemma round_antitone (q : Q) (t1 t2 : Z) :
  0 < q -> (t1 <= t2)%Z ->
  (Math_round (((q - inject_Z t2) / q) * inject_Z 100)
   <= Math_round (((q - inject_Z t1) / q) * inject_Z 100))%Z.
Proof.
  intros P L. unfold Math_round. apply Qfloor_resp_le.
  assert (T : inject_Z t1 <= inject_Z t2) by (rewrite <- Zle_Qle; exact L).
  assert (I : 0 <= / q) by (apply Qinv_le_0_compat; lra).
  assert (Y : (q - inject_Z t2) / q <= (q - inject_Z t1) / q).
  { unfold Qdiv. apply Qmult_le_compat_r; [lra | exact I]. }
  change (inject_Z 100) with 100. lra.
Qed.


(** X18. More tokens never leave more of the context: for every context
    window the percentage left does not rise when the total rises. *)
Theorem leftPct_antitone (contextWindow : Number) (total1 total2 : Z) :
  (total1 <= total2)%Z ->
  (leftPct contextWindow total2 <= leftPct contextWindow total1)%Z.
Proof.
  intros L. unfold leftPct. destruct contextWindow as [q|]; [|lia].
  destruct (negb (Qle_bool q 0)) eqn:E; [|lia].
  apply window_positive in E.
  pose proof (round_antitone q total1 total2 E L). lia.
Qed.

Lemma leftPct_antitone_witness :
  (leftPct (Fin 8192) 5000 <= leftPct (Fin 8192) 4096)%Z.
Proof. apply (leftPct_antitone (Fin 8192) 4096 5000). lia. Defined.

(** ** The pattern for [num_ctx] *)

Lemma digit_no_space (c : ascii) : isDigit c = true -> isSpace c = false.
Proof.
  destruct c as [[] [] [] [] [] [] [] []]; intros H;
    reflexivity || discriminate H.
Qed.

Lemma takeWhile_stops (f : ascii -> bool) (a b : string) :
  allUnits f a = true -> firstUnit f b = false ->
  takeWhile f (a ++ b) = a /\ dropWhile f (a ++ b) = b.
Proof.
  intros A B. induction a as [|c a IH]; cbn [append].
  - destruct b as [|c b]; [auto|]. cbn [firstUnit] in B.
    cbn [takeWhile dropWhile]. rewrite B. auto.
  - cbn [allUnits] in A. apply andb_true_iff in A. destruct A as [C A].
    cbn [takeWhile dropWhile]. rewrite C. destruct (IH A) as [E1 E2].
    rewrite E1, E2. auto.
Qed.

Lemma takeWhile_split (f : ascii -> bool) (s : string) :
  s = takeWhile f s ++ dropWhile f s /\ allUnits f (takeWhile f s) = true.
Proof.
  induction s as [|c s [E A]]; cbn [takeWhile dropWhile]; [auto|].
  destruct (f c) eqn:C; cbn [append allUnits]; [|auto].
  rewrite C, A. split; [now f_equal | reflexivity].
Qed.

(** X21. The pattern finds a context length that is written as
    [num_ctx], white space and digits at the start of the parameters:
    the match is the digits, all of them. *)
Theorem matchNumCtx_finds (spaces digits rest : string) :
  nonEmpty spaces = true -> allUnits isSpace spaces = true ->
  nonEmpty digits = true -> allUnits isDigit digits = true ->
  firstUnit isDigit rest = false ->
  matchNumCtx ("num_ctx" ++ spaces ++ digits ++ rest) = Some digits.
Proof.
  intros NS AS ND AD R.
  assert (H : matchNumCtxHere ("num_ctx" ++ spaces ++ digits ++ rest)
              = Some digits).
  { unfold matchNumCtxHere, startsWith. rewrite prefix_app.
    change (slice 7 ("num_ctx" ++ spaces ++ digits ++ rest))
      with (spaces ++ digits ++ rest).
    assert (F : firstUnit isSpace (digits ++ rest) = false).
    { destruct digits as [|c digits]; [discriminate|]. simpl in *.
      apply andb_true_iff in AD. now apply digit_no_space. }
    destruct (takeWhile_stops isSpace spaces (digits ++ rest) AS F) as [-> ->].
    destruct (takeWhile_stops isDigit digits rest AD R) as [-> _].
    now rewrite NS, ND. }
  change ("num_ctx" ++ spaces ++ digits ++ rest)
    with (String "n" ("um_ctx" ++ spaces ++ digits ++ rest)) in *.
  cbn [matchNumCtx]. now rewrite H.
Qed.

Lemma matchNumCtx_finds_witness :
  matchNumCtx ("num_ctx" ++ "    " ++ "4096" ++ " stop") = Some "4096".
Proof. apply (matchNumCtx_finds "    " "4096" " stop"); reflexivity. Defined.

(** X22. What the pattern returns are digits, at least one, that stand
    in the text after [num_ctx] and white space. *)
Theorem matchNumCtx_sound (s digits : string) :
  matchNumCtx s = Some digits ->
  nonEmpty digits = true
  /\ allUnits isDigit digits = true
  /\ exists before spaces rest,
       s = before ++ "num_ctx" ++ spaces ++ digits ++ rest
       /\ nonEmpty spaces = true
       /\ allUnits isSpace spaces = true.
Proof.
  induction s as [|c s IH].
  - cbn. discriminate.
  - cbn [matchNumCtx].
    destruct (matchNumCtxHere (String c s)) as [d|] eqn:H.
    + intros E. injection E as <-. unfold matchNumCtxHere in H.
      destruct (startsWith (String c s) "num_ctx") eqn:P; [|discriminate].
      apply startsWith_split in P.
      change (String.length "num_ctx") with 7%nat in P.
      set (after := slice 7 (String c s)) in *.
      destruct (nonEmpty (takeWhile isSpace after)) eqn:NS; [|discriminate].
      destruct (nonEmpty (takeWhile isDigit (dropWhile isSpace after))) eqn:ND;
        [|discriminate].
      cbn [andb] in H. injection H as <-.
      destruct (takeWhile_split isSpace after) as [E1 A1].
      destruct (takeWhile_split isDigit (dropWhile isSpace after)) as [E2 A2].
      split; [exact ND|]. split; [exact A2|].
      exists "", (takeWhile isSpace after),
        (dropWhile isDigit (dropWhile isSpace after)).
      split; [|auto]. rewrite <- E2, <- E1. exact P.
    + intros E. destruct (IH E) as (N & A & before & spaces & rest & -> & X).
      split; [exact N|]. split; [exact A|].
      exists (String c before), spaces, rest. auto.
Qed.

Lemma matchNumCtx_sound_witness :
  nonEmpty "4096" = true
  /\ allUnits isDigit "4096" = true
  /\ exists before spaces rest,
       "temperature 0.7 num_ctx  4096" = before ++ "num_ctx" ++ spaces ++ "4096" ++ rest
       /\ nonEmpty spaces = true
       /\ allUnits isSpace spaces = true.
Proof.
  exact (matchNumCtx_sound "temperature 0.7 num_ctx  4096" "4096" eq_refl).
Defined.

End HandlerMore.
